(** * feather.js: the raw-secret key and the tri-format message codec

    A shallow embedding of [src/key/RawKey.ts] (class [RawKey]), of the
    IBC message [MsgUpdateClient] and of [src/core/jax/msgs/MsgStoreCode.ts]
    (class [MsgStoreCode]).

    TypeScript types are erased when the program runs, and the decoders
    [fromAmino] and [fromData] cast their argument without looking at it,
    so message fields are modelled as run-time values ([JsValue]); the
    predicates [wt] say when a message has the shape its TypeScript type
    announces.  Code that lives in other packages (jscrypto, keccak256,
    secp256k1, and the protocol-buffer bindings generated in
    @terra-money/terra.proto) is taken as a parameter, together with the
    contract the program relies on.  A parameter that a method never
    reads ([_], and [isClassic] where it is only passed on) is left
    out. *)

From Stdlib Require Import List String Ascii ZArith NArith Lia Bool.
From Stdlib Require Import Strings.Byte.
Import ListNotations.
Open Scope string_scope.

Set Implicit Arguments.
Set Warnings "-register-all".

(** ** Run-time values *)

Definition bytes := list byte.

(** The values a payload parsed from JSON, or a message field, can hold.
    An object is the list of its own properties in insertion order; a
    property is looked up by the first entry that carries its name.
    [JBytes] is a [Uint8Array].  A string is held as the bytes of its
    text: UTF-8, and for a surrogate that stands alone the three bytes
    of its code point ([ED A0..BF 80..BF]), so that every string has
    one list of bytes and two strings are equal when their bytes
    are. *)
Inductive JsValue : Type :=
| JUndefined
| JNull
| JBool (b : bool)
| JNumber (n : Z)
| JString (s : string)
| JBytes (b : bytes)
| JObject (props : list (string * JsValue)).

(** What a [throw] carries: the engine's own [TypeError] and [RangeError],
    and [new Error(message)]. *)
Inductive JsError : Type :=
| TypeError
| RangeError
| Error (message : string).

(** The outcome of evaluating an expression: a value, or an exception. *)
Inductive Completion (A : Type) : Type :=
| Return (a : A)
| Throw (e : JsError).

Arguments Return {A} a.
Arguments Throw {A} e.

Definition bind {A B} (c : Completion A) (k : A -> Completion B) : Completion B :=
  match c with
  | Return a => k a
  | Throw e => Throw e
  end.

Notation "x <- c ;; k" := (bind c (fun x => k))
  (at level 61, c at next level, right associativity).

Fixpoint own_property (name : string) (props : list (string * JsValue)) : option JsValue :=
  match props with
  | [] => None
  | (k, v) :: rest => if String.eqb k name then Some v else own_property name rest
  end.

(** What [o.name] holds when [o] is neither [undefined] nor [null]: a
    missing property reads as [undefined].  None of the names read in
    this development is a property of a primitive's prototype, so a
    primitive answers [undefined] as well. *)
Definition property (o : JsValue) (name : string) : JsValue :=
  match o with
  | JObject props =>
      match own_property name props with
      | Some v => v
      | None => JUndefined
      end
  | _ => JUndefined
  end.

(** [o.name], and one binding of a destructuring pattern [{ name } = o]:
    [undefined] and [null] have no properties, and reading one throws a
    [TypeError]. *)
Definition GetV (o : JsValue) (name : string) : Completion JsValue :=
  match o with
  | JUndefined | JNull => Throw TypeError
  | _ => Return (property o name)
  end.

Definition is_string (v : JsValue) : bool :=
  match v with
  | JString _ => true
  | _ => false
  end.

Definition is_object (v : JsValue) : bool :=
  match v with
  | JObject _ => true
  | _ => false
  end.

(** A member of a string literal type: that very string. *)
Definition has_tag (v : JsValue) (tag : string) : bool :=
  match v with
  | JString s => String.eqb s tag
  | _ => false
  end.

(** ** Well-formed strings *)

Definition in_range (lo hi : N) (c : ascii) : bool :=
  ((lo <=? N_of_ascii c) && (N_of_ascii c <=? hi))%N.

Definition continuation : ascii -> bool := in_range 128 191.

(** The first two bytes of a code point of three bytes that is no
    surrogate, and of a code point of four bytes. *)
Definition three_bytes (a b : ascii) : bool :=
  (in_range 224 224 a && in_range 160 191 b)
  || (in_range 225 236 a && continuation b)
  || (in_range 237 237 a && in_range 128 159 b)
  || (in_range 238 239 a && continuation b).

Definition four_bytes (a b : ascii) : bool :=
  (in_range 240 240 a && in_range 144 191 b)
  || (in_range 241 243 a && continuation b)
  || (in_range 244 244 a && in_range 128 143 b).

(** [s.isWellFormed()]: the string holds no surrogate that stands
    alone, that is, its bytes are UTF-8. *)
Fixpoint isWellFormed (s : string) : bool :=
  match s with
  | EmptyString => true
  | String a r1 =>
      if in_range 0 127 a then isWellFormed r1
      else
        match r1 with
        | EmptyString => false
        | String b r2 =>
            if in_range 194 223 a then continuation b && isWellFormed r2
            else
              match r2 with
              | EmptyString => false
              | String c r3 =>
                  if three_bytes a b then continuation c && isWellFormed r3
                  else
                    match r3 with
                    | EmptyString => false
                    | String d r4 =>
                        four_bytes a b && continuation c && continuation d
                        && isWellFormed r4
                    end
              end
        end
  end.

(** A value that, when it is a string, is a well-formed one. *)
Definition well_formed_value (v : JsValue) : bool :=
  match v with
  | JString s => isWellFormed s
  | _ => true
  end.

(** ** [google.protobuf.Any]: the type-erased envelope *)

Module Any.

Record t : Type := mk { typeUrl : string; value : bytes }.

(** An envelope held in a message field, as the object it is. *)
Definition to_js (a : t) : JsValue :=
  JObject [("typeUrl", JString (typeUrl a)); ("value", JBytes (value a))].

Definition of_js (v : JsValue) : option t :=
  match v with
  | JObject [(k1, JString u); (k2, JBytes b)] =>
      if String.eqb k1 "typeUrl" && String.eqb k2 "value"
      then Some (mk u b) else None
  | _ => None
  end.

(** [Any.fromPartial], generated code of @terra-money/terra.proto. *)
Record binding : Type := { fromPartial : t -> t }.

(** Given both fields, [fromPartial] returns them as they are. *)
Definition fromPartial_copies (pb : binding) : Prop :=
  forall a, fromPartial pb a = a.

End Any.

(** ** The generated protocol-buffer bindings (parameters)

    [MsgStoreCode_pb] and [MsgUpdateClient_pb] are generated code of the
    package @terra-money/terra.proto.  The program uses three of their
    functions: [fromPartial], [encode(...).finish()] and [decode]. *)

Module MsgStoreCode_pb.

Record t : Type := mk {
  creator : JsValue;
  admin : JsValue;
  code : JsValue;
  params : JsValue
}.

Record binding : Type := {
  fromPartial : t -> t;
  encode : t -> Completion bytes;
  decode : bytes -> Completion t
}.

(** The interface the generator declares: four strings. *)
Definition wt (p : t) : bool :=
  is_string (creator p) && is_string (admin p)
  && is_string (code p) && is_string (params p).

(** [fromPartial] fills absent fields with defaults and copies the
    others: on an object that has every field it changes nothing. *)
Definition fromPartial_copies (pb : binding) : Prop :=
  forall p, wt p = true -> fromPartial pb p = p.

(** Every string field is well formed. *)
Definition wf (p : t) : bool :=
  well_formed_value (creator p) && well_formed_value (admin p)
  && well_formed_value (code p) && well_formed_value (params p).

(** The wire format is read back as it was written, when the strings
    written are well formed: the wire holds UTF-8, and the writer puts
    U+FFFD where a surrogate stands alone. *)
Definition decode_encode (pb : binding) : Prop :=
  forall p, wt p = true -> wf p = true ->
    exists b, encode pb p = Return b /\ decode pb b = Return p.

End MsgStoreCode_pb.

Module MsgUpdateClient_pb.

Record t : Type := mk {
  clientId : JsValue;
  clientMessage : JsValue;
  signer : JsValue
}.

Record binding : Type := {
  fromPartial : t -> t;
  encode : t -> Completion bytes;
  decode : bytes -> Completion t
}.

Definition is_optional_Any (v : JsValue) : bool :=
  match v with
  | JUndefined => true
  | _ => match Any.of_js v with Some _ => true | None => false end
  end.

(** [clientId: string; clientMessage?: Any; signer: string]. *)
Definition wt (p : t) : bool :=
  is_string (clientId p) && is_optional_Any (clientMessage p)
  && is_string (signer p).

Definition fromPartial_copies (pb : binding) : Prop :=
  forall p, wt p = true -> fromPartial pb p = p.

(** Every string field is well formed, the type URL of the inner
    envelope included. *)
Definition wf (p : t) : bool :=
  well_formed_value (clientId p)
  && well_formed_value (property (clientMessage p) "typeUrl")
  && well_formed_value (signer p).

Definition decode_encode (pb : binding) : Prop :=
  forall p, wt p = true -> wf p = true ->
    exists b, encode pb p = Return b /\ decode pb b = Return p.

End MsgUpdateClient_pb.

(** ** [MsgStoreCode] *)

Module MsgStoreCode.

(** [new MsgStoreCode(creator, admin, code, params)]. *)
Record t : Type := new {
  creator : JsValue;
  admin : JsValue;
  code : JsValue;
  params : JsValue
}.

(** The constructor's declared parameter types: [AccAddress] (a string)
    twice, then two strings. *)
Definition wt (m : t) : bool :=
  is_string (creator m) && is_string (admin m)
  && is_string (code m) && is_string (params m).

(** Every string field is well formed. *)
Definition wf (m : t) : bool :=
  well_formed_value (creator m) && well_formed_value (admin m)
  && well_formed_value (code m) && well_formed_value (params m).

(** [const { value: { creator, admin, code, params } } = data]. *)
Definition fromAmino (data : JsValue) : Completion t :=
  value <- GetV data "value" ;;
  creator <- GetV value "creator" ;;
  admin <- GetV value "admin" ;;
  code <- GetV value "code" ;;
  params <- GetV value "params" ;;
  Return (new creator admin code params).

Definition toAmino (m : t) : JsValue :=
  JObject [
    ("type", JString "jax/MsgStoreCode");
    ("value", JObject [
       ("creator", creator m);
       ("admin", admin m);
       ("code", code m);
       ("params", params m)])].

Definition fromProto (p : MsgStoreCode_pb.t) : t :=
  new (MsgStoreCode_pb.creator p) (MsgStoreCode_pb.admin p)
      (MsgStoreCode_pb.code p) (MsgStoreCode_pb.params p).

(** [const { creator, admin, code, params } = data]. *)
Definition fromData (data : JsValue) : Completion t :=
  creator <- GetV data "creator" ;;
  admin <- GetV data "admin" ;;
  code <- GetV data "code" ;;
  params <- GetV data "params" ;;
  Return (new creator admin code params).

Definition toData (m : t) : JsValue :=
  JObject [
    ("@type", JString "/jax.MsgStoreCode");
    ("creator", creator m);
    ("admin", admin m);
    ("code", code m);
    ("params", params m)].

Section WithBinding.

Variable any_pb : Any.binding.
Variable pb : MsgStoreCode_pb.binding.

Definition toProto (m : t) : MsgStoreCode_pb.t :=
  MsgStoreCode_pb.fromPartial pb
    (MsgStoreCode_pb.mk (creator m) (admin m) (code m) (params m)).

Definition packAny (m : t) : Completion Any.t :=
  value <- MsgStoreCode_pb.encode pb (toProto m) ;;
  Return (Any.fromPartial any_pb (Any.mk "/jax.MsgStoreCode" value)).

Definition unpackAny (msgAny : Any.t) : Completion t :=
  p <- MsgStoreCode_pb.decode pb (Any.value msgAny) ;;
  Return (fromProto p).

End WithBinding.

(** The two generations of each JSON shape, as interfaces are matched:
    by the members an object has.  The interfaces [AminoV1] and
    [AminoV2] are declared with the same members, and so are [DataV1]
    and [DataV2]. *)
Definition is_AminoV2 (data : JsValue) : bool :=
  is_object data
  && has_tag (property data "type") "jax/MsgStoreCode"
  && is_object (property data "value")
  && is_string (property (property data "value") "creator")
  && is_string (property (property data "value") "admin")
  && is_string (property (property data "value") "code")
  && is_string (property (property data "value") "params").

Definition is_AminoV1 : JsValue -> bool := is_AminoV2.

Definition is_DataV2 (data : JsValue) : bool :=
  is_object data
  && has_tag (property data "@type") "/jax.MsgStoreCode"
  && is_string (property data "creator")
  && is_string (property data "admin")
  && is_string (property data "code")
  && is_string (property data "params").

Definition is_DataV1 : JsValue -> bool := is_DataV2.

End MsgStoreCode.

(** ** [MsgUpdateClient] *)

Module MsgUpdateClient.

(** [new MsgUpdateClient(client_id, clientMessage, signer)]. *)
Record t : Type := new {
  client_id : JsValue;
  clientMessage : JsValue;
  signer : JsValue
}.

(** [client_id: string, clientMessage: Any | undefined, signer: string]. *)
Definition wt (m : t) : bool :=
  is_string (client_id m)
  && MsgUpdateClient_pb.is_optional_Any (clientMessage m)
  && is_string (signer m).

(** Every string field is well formed, the type URL of the inner
    envelope included. *)
Definition wf (m : t) : bool :=
  well_formed_value (client_id m)
  && well_formed_value (property (clientMessage m) "typeUrl")
  && well_formed_value (signer m).

(** Both arguments are evaluated and dropped, then the function throws. *)
Definition fromAmino (_ : JsValue) (isClassic : JsValue) : Completion t :=
  Throw (Error "Amino not supported").

Definition toAmino (m : t) : Completion JsValue :=
  Throw (Error "Amino not supported").

Definition fromData (data : JsValue) : Completion t :=
  client_id <- GetV data "client_id" ;;
  clientMessage <- GetV data "clientMessage" ;;
  signer <- GetV data "signer" ;;
  Return (new client_id clientMessage signer).

Definition toData (m : t) : JsValue :=
  JObject [
    ("@type", JString "/ibc.core.client.v1.MsgUpdateClient");
    ("client_id", client_id m);
    ("clientMessage", clientMessage m);
    ("signer", signer m)].

Definition fromProto (p : MsgUpdateClient_pb.t) : t :=
  new (MsgUpdateClient_pb.clientId p) (MsgUpdateClient_pb.clientMessage p)
      (MsgUpdateClient_pb.signer p).

Section WithBinding.

Variable any_pb : Any.binding.
Variable pb : MsgUpdateClient_pb.binding.

Definition toProto (m : t) : MsgUpdateClient_pb.t :=
  MsgUpdateClient_pb.fromPartial pb
    (MsgUpdateClient_pb.mk (client_id m) (clientMessage m) (signer m)).

Definition packAny (m : t) : Completion Any.t :=
  value <- MsgUpdateClient_pb.encode pb (toProto m) ;;
  Return (Any.fromPartial any_pb
            (Any.mk "/ibc.core.client.v1.MsgUpdateClient" value)).

Definition unpackAny (msgAny : Any.t) : Completion t :=
  p <- MsgUpdateClient_pb.decode pb (Any.value msgAny) ;;
  Return (fromProto p).

End WithBinding.

End MsgUpdateClient.

(** ** Text encodings of byte strings *)

Definition byte_of_N (n : N) : byte :=
  match Byte.of_N n with
  | Some b => b
  | None => x00
  end.

Definition hex_digit (n : N) : ascii :=
  (if n <? 10 then ascii_of_N (48 + n) else ascii_of_N (87 + n))%N.

Definition hex_value (c : ascii) : option N :=
  let n := N_of_ascii c in
  (if (48 <=? n) && (n <=? 57) then Some (n - 48)
   else if (97 <=? n) && (n <=? 102) then Some (n - 87)
   else if (65 <=? n) && (n <=? 70) then Some (n - 55)
   else None)%N.

(** [Word32Array.toString()]: the default encoder writes two lower-case
    hexadecimal digits for each significant byte. *)
Fixpoint Hex_stringify (b : bytes) : string :=
  match b with
  | [] => ""
  | x :: rest =>
      String (hex_digit (Byte.to_N x / 16))
        (String (hex_digit (Byte.to_N x mod 16)) (Hex_stringify rest))
  end.

(** [Buffer.from(text, 'hex')]: one byte for each pair of hexadecimal
    digits, up to the first pair that is not one. *)
Fixpoint Buffer_from_hex (s : string) : bytes :=
  match s with
  | String hi (String lo rest) =>
      match hex_value hi, hex_value lo with
      | Some h, Some l => byte_of_N (16 * h + l) :: Buffer_from_hex rest
      | _, _ => []
      end
  | _ => []
  end.

Definition base64_alphabet : string :=
  "ABCDEFGHIJKLMNOPQRSTUVWXYZabcdefghijklmnopqrstuvwxyz0123456789+/".

Definition base64_char (n : N) : ascii :=
  match String.get (N.to_nat n) base64_alphabet with
  | Some c => c
  | None => "="%char
  end.

(** [buffer.toString('base64')]: four characters for three bytes, padded
    with [=]. *)
Fixpoint toString_base64 (b : bytes) : string :=
  match b with
  | [] => ""
  | [x] =>
      let n := Byte.to_N x in
      String (base64_char (n / 4))
        (String (base64_char (n mod 4 * 16)) "==")
  | [x; y] =>
      let n := Byte.to_N x in
      let m := Byte.to_N y in
      String (base64_char (n / 4))
        (String (base64_char (n mod 4 * 16 + m / 16))
           (String (base64_char (m mod 16 * 4)) "="))
  | x :: y :: z :: rest =>
      let n := Byte.to_N x in
      let m := Byte.to_N y in
      let k := Byte.to_N z in
      String (base64_char (n / 4))
        (String (base64_char (n mod 4 * 16 + m / 16))
           (String (base64_char (m mod 16 * 4 + k / 64))
              (String (base64_char (k mod 64)) (toString_base64 rest))))
  end%N.

(** ** The signing libraries (parameters) *)

Module secp256k1.

(** What [ecdsaSign] returns: the 64-byte compact signature and the
    recovery id. *)
Record Signature : Type := { signature : bytes; recid : Z }.

(** The two functions of the package secp256k1 that [RawKey] calls.
    ECDSA draws a nonce for each signature; [Entropy] stands for
    whatever the process could draw it from at the time of the call. *)
Record lib (Entropy : Type) : Type := {
  publicKeyCreate : bytes -> bool -> Completion bytes;
  ecdsaSign : Entropy -> bytes -> bytes -> Completion Signature
}.

(** A secret that [publicKeyCreate] accepted signs any 32-byte digest,
    and the signature has 64 bytes. *)
Definition signs_with_valid_secret {Entropy} (L : lib Entropy) : Prop :=
  forall e secret pub digest,
    publicKeyCreate L secret true = Return pub ->
    List.length digest = 32%nat ->
    exists s, ecdsaSign L e digest secret = Return s
              /\ List.length (signature s) = 64%nat.

(** Called without a nonce function, [ecdsaSign] derives the nonce from
    the digest and the secret (RFC 6979). *)
Definition rfc6979 {Entropy} (L : lib Entropy) : Prop :=
  forall e1 e2 digest secret,
    ecdsaSign L e1 digest secret = ecdsaSign L e2 digest secret.

(** The same library, reporting another recovery id. *)
Definition map_recid {Entropy} (f : Z -> Z) (L : lib Entropy) : lib Entropy :=
  {| publicKeyCreate := publicKeyCreate L;
     ecdsaSign := fun e digest secret =>
       s <- ecdsaSign L e digest secret ;;
       Return {| signature := signature s; recid := f (recid s) |} |}.

End secp256k1.

(** The hash functions: [SHA256.hash] of jscrypto, as the bytes of the
    [Word32Array] it returns, and the package keccak256. *)
Record hashes : Type := {
  SHA256_hash : bytes -> bytes;
  keccak256 : bytes -> bytes
}.

Definition digests_32 (H : hashes) : Prop :=
  forall payload,
    List.length (SHA256_hash H payload) = 32%nat
    /\ List.length (keccak256 H payload) = 32%nat.

(** ** [RawKey] *)

(** The two classes of [core/PublicKey] that the constructor builds, each
    from the base64 text of the compressed key. *)
Inductive PublicKey : Type :=
| SimplePublicKey (key : string)
| InjectivePubKey (key : string).

(** An optional boolean parameter: absent, or [false], or [true]. *)
Definition truthy (flag : option bool) : bool :=
  match flag with
  | Some true => true
  | _ => false
  end.

Inductive Promise (A : Type) : Type :=
| Resolved (a : A)
| Rejected (e : JsError).

Arguments Resolved {A} a.
Arguments Rejected {A} e.

(** The promise of an [async] function: what the body returns resolves
    it, what the body throws rejects it. *)
Definition async {A} (body : Completion A) : Promise A :=
  match body with
  | Return a => Resolved a
  | Throw err => Rejected err
  end.

Module RawKey.

Record t : Type := mk {
  publicKey : PublicKey;
  isInjective : option bool;
  privateKey : bytes
}.

Section WithLibraries.

Variable Entropy : Type.
Variable L : secp256k1.lib Entropy.
Variable H : hashes.

(** [new RawKey(privateKey, isInjective)]. *)
Definition new (privateKey : bytes) (isInjective : option bool) : Completion t :=
  publicKey <- secp256k1.publicKeyCreate L privateKey true ;;
  Return (mk (if truthy isInjective
              then InjectivePubKey (toString_base64 publicKey)
              else SimplePublicKey (toString_base64 publicKey))
             isInjective privateKey).

Definition ecdsaSign (e : Entropy) (k : t) (payload : bytes)
  : Completion secp256k1.Signature :=
  let hash := Buffer_from_hex (Hex_stringify (SHA256_hash H payload)) in
  secp256k1.ecdsaSign L e hash (privateKey k).

Definition etherSign (e : Entropy) (k : t) (payload : bytes)
  : Completion secp256k1.Signature :=
  let hash := keccak256 H payload in
  secp256k1.ecdsaSign L e hash (privateKey k).

(** [const { signature } = ...; return Buffer.from(signature)], in an
    [async] function. *)
Definition sign (e : Entropy) (k : t) (payload : bytes) : Promise bytes :=
  async (r <- (if truthy (isInjective k)
               then etherSign e k payload
               else ecdsaSign e k payload) ;;
         Return (secp256k1.signature r)).

End WithLibraries.

End RawKey.

(** ** An instance of the generated bindings: the protocol-buffer wire format

    The bindings as the generator writes them for messages whose fields
    are numbered in declaration order ([MsgUpdateClient] is
    [client_id = 1], [client_message = 2], [signer = 3]; [Any] is
    [type_url = 1], [value = 2]).  The instance shows that the
    contracts of the bindings can be met, and runs the model on
    concrete messages.  A string field is written as the bytes of the
    string, which is what protobufjs's own writer does (the one it
    uses for a string of fewer than 40 code units; [Node] below adds
    the writer of longer strings), and reading a string field returns
    the bytes as they are; lengths and tags are not cut to 32 bits; a
    nested message is decoded from its own bytes; writing a field that
    does not hold a value of its declared type throws. *)

Module Wire.

Fixpoint varint_aux (fuel : nat) (n : N) : bytes :=
  match fuel with
  | O => [byte_of_N n]
  | S f =>
      if (n <? 128)%N then [byte_of_N n]
      else byte_of_N (128 + n mod 128) :: varint_aux f (n / 128)
  end.

(** [writer.uint32(n)]: seven bits a byte, low bits first, the high bit
    set on every byte but the last. *)
Definition varint (n : N) : bytes := varint_aux (N.to_nat (N.log2 n)) n.

(** [reader.uint32()]. *)
Fixpoint read_varint (b : bytes) : Completion (N * bytes) :=
  match b with
  | [] => Throw RangeError
  | x :: rest =>
      let n := Byte.to_N x in
      if (n <? 128)%N then Return (n, rest)
      else r <- read_varint rest ;;
           Return ((n - 128) + 128 * fst r, snd r)%N
  end.

(** The next [n] bytes, and what follows them. *)
Definition take (n : N) (b : bytes) : Completion (bytes * bytes) :=
  if (N.of_nat (List.length b) <? n)%N then Throw RangeError
  else Return (firstn (N.to_nat n) b, skipn (N.to_nat n) b).

(** [writer.bytes(payload)] and [reader.bytes()]: the length, then the
    bytes. *)
Definition delimited (payload : bytes) : bytes :=
  (varint (N.of_nat (List.length payload)) ++ payload)%list.

Definition read_delimited (b : bytes) : Completion (bytes * bytes) :=
  r <- read_varint b ;; take (fst r) (snd r).

(** [reader.skipType(wireType)]: a varint, 8 bytes, a length-delimited
    run, a group up to its end tag, or 4 bytes. *)
Fixpoint skipType (fuel : nat) (wireType : N) (b : bytes) : Completion bytes :=
  match fuel with
  | O => Throw RangeError
  | S f =>
      match wireType with
      | 0 => r <- read_varint b ;; Return (snd r)
      | 1 => r <- take 8 b ;; Return (snd r)
      | 2 => r <- read_delimited b ;; Return (snd r)
      | 3 =>
          r <- read_varint b ;;
          if (fst r mod 8 =? 4)%N then Return (snd r)
          else rest <- skipType f (fst r mod 8) (snd r) ;; skipType f 3 rest
      | 5 => r <- take 4 b ;; Return (snd r)
      | _ => Throw (Error "invalid wire type")
      end%N
  end.

(** [if (field !== '') writer.uint32(tag).string(field)]. *)
Definition field_bytes (tag : N) (s : string) : bytes :=
  if String.eqb s "" then []
  else (varint tag ++ delimited (list_byte_of_string s))%list.

Definition string_field (tag : N) (v : JsValue) : Completion bytes :=
  match v with
  | JString s => Return (field_bytes tag s)
  | _ => Throw TypeError
  end.

(** What a string field holds after the bytes of [field_bytes] were
    read: an empty string wrote nothing and leaves the field as it
    was. *)
Definition field_value (s : string) (before : JsValue) : JsValue :=
  if String.eqb s "" then before else JString s.

(** [x ?? d]. *)
Definition nullish (d v : JsValue) : JsValue :=
  match v with
  | JUndefined | JNull => d
  | _ => v
  end.

Module StoreCode.

Import MsgStoreCode_pb.

Definition createBase : t :=
  mk (JString "") (JString "") (JString "") (JString "").

Definition fromPartial (p : t) : t :=
  mk (nullish (JString "") (creator p)) (nullish (JString "") (admin p))
     (nullish (JString "") (code p)) (nullish (JString "") (params p)).

Definition encode (p : t) : Completion bytes :=
  f1 <- string_field 10 (creator p) ;;
  f2 <- string_field 18 (admin p) ;;
  f3 <- string_field 26 (code p) ;;
  f4 <- string_field 34 (params p) ;;
  Return (f1 ++ f2 ++ f3 ++ f4)%list.

(** [while (reader.pos < end) { const tag = reader.uint32();
    switch (tag >>> 3) ... }]. *)
Fixpoint decode_loop (fuel : nat) (b : bytes) (msg : t) : Completion t :=
  match b, fuel with
  | [], _ => Return msg
  | _, O => Throw RangeError
  | _, S f =>
      r <- read_varint b ;;
      match (fst r / 8)%N with
      | 1%N =>
          s <- read_delimited (snd r) ;;
          decode_loop f (snd s)
            (mk (JString (string_of_list_byte (fst s))) (admin msg) (code msg) (params msg))
      | 2%N =>
          s <- read_delimited (snd r) ;;
          decode_loop f (snd s)
            (mk (creator msg) (JString (string_of_list_byte (fst s))) (code msg) (params msg))
      | 3%N =>
          s <- read_delimited (snd r) ;;
          decode_loop f (snd s)
            (mk (creator msg) (admin msg) (JString (string_of_list_byte (fst s))) (params msg))
      | 4%N =>
          s <- read_delimited (snd r) ;;
          decode_loop f (snd s)
            (mk (creator msg) (admin msg) (code msg) (JString (string_of_list_byte (fst s))))
      | _ =>
          rest <- skipType (S (List.length (snd r))) (fst r mod 8)%N (snd r) ;;
          decode_loop f rest msg
      end
  end.

Definition decode (b : bytes) : Completion t :=
  decode_loop (List.length b) b createBase.

Definition binding : MsgStoreCode_pb.binding :=
  {| MsgStoreCode_pb.fromPartial := fromPartial;
     MsgStoreCode_pb.encode := encode;
     MsgStoreCode_pb.decode := decode |}.

End StoreCode.

Module AnyMsg.

Definition createBase : Any.t := Any.mk "" [].

Definition fromPartial (o : JsValue) : JsValue :=
  JObject [("typeUrl", nullish (JString "") (property o "typeUrl"));
           ("value", nullish (JBytes []) (property o "value"))].

(** [if (message.value.length !== 0) writer.uint32(18).bytes(message.value)]. *)
Definition value_bytes (b : bytes) : bytes :=
  match b with
  | [] => []
  | _ => (varint 18 ++ delimited b)%list
  end.

Definition encode (a : Any.t) : bytes :=
  (field_bytes 10 (Any.typeUrl a) ++ value_bytes (Any.value a))%list.

Fixpoint decode_loop (fuel : nat) (b : bytes) (msg : Any.t) : Completion Any.t :=
  match b, fuel with
  | [], _ => Return msg
  | _, O => Throw RangeError
  | _, S f =>
      r <- read_varint b ;;
      match (fst r / 8)%N with
      | 1%N =>
          s <- read_delimited (snd r) ;;
          decode_loop f (snd s) (Any.mk (string_of_list_byte (fst s)) (Any.value msg))
      | 2%N =>
          s <- read_delimited (snd r) ;;
          decode_loop f (snd s) (Any.mk (Any.typeUrl msg) (fst s))
      | _ =>
          rest <- skipType (S (List.length (snd r))) (fst r mod 8)%N (snd r) ;;
          decode_loop f rest msg
      end
  end.

Definition decode (b : bytes) : Completion Any.t :=
  decode_loop (List.length b) b createBase.

Definition binding : Any.binding := {| Any.fromPartial := fun a => a |}.

End AnyMsg.

Module UpdateClient.

Import MsgUpdateClient_pb.

Definition createBase : t := mk (JString "") JUndefined (JString "").

Definition fromPartial (p : t) : t :=
  mk (nullish (JString "") (clientId p))
     (match clientMessage p with
      | JUndefined | JNull => JUndefined
      | o => AnyMsg.fromPartial o
      end)
     (nullish (JString "") (signer p)).

(** [if (message.clientMessage !== undefined)
      Any.encode(message.clientMessage, writer.uint32(18).fork()).ldelim()]. *)
Definition message_bytes (v : JsValue) : bytes :=
  match Any.of_js v with
  | Some a => (varint 18 ++ delimited (AnyMsg.encode a))%list
  | None => []
  end.

Definition message_field (v : JsValue) : Completion bytes :=
  match v with
  | JUndefined => Return []
  | _ =>
      match Any.of_js v with
      | Some _ => Return (message_bytes v)
      | None => Throw TypeError
      end
  end.

Definition encode (p : t) : Completion bytes :=
  f1 <- string_field 10 (clientId p) ;;
  f2 <- message_field (clientMessage p) ;;
  f3 <- string_field 26 (signer p) ;;
  Return (f1 ++ f2 ++ f3)%list.

Fixpoint decode_loop (fuel : nat) (b : bytes) (msg : t) : Completion t :=
  match b, fuel with
  | [], _ => Return msg
  | _, O => Throw RangeError
  | _, S f =>
      r <- read_varint b ;;
      match (fst r / 8)%N with
      | 1%N =>
          s <- read_delimited (snd r) ;;
          decode_loop f (snd s)
            (mk (JString (string_of_list_byte (fst s))) (clientMessage msg) (signer msg))
      | 2%N =>
          s <- read_delimited (snd r) ;;
          a <- AnyMsg.decode (fst s) ;;
          decode_loop f (snd s) (mk (clientId msg) (Any.to_js a) (signer msg))
      | 3%N =>
          s <- read_delimited (snd r) ;;
          decode_loop f (snd s)
            (mk (clientId msg) (clientMessage msg) (JString (string_of_list_byte (fst s))))
      | _ =>
          rest <- skipType (S (List.length (snd r))) (fst r mod 8)%N (snd r) ;;
          decode_loop f rest msg
      end
  end.

Definition decode (b : bytes) : Completion t :=
  decode_loop (List.length b) b createBase.

Definition binding : MsgUpdateClient_pb.binding :=
  {| MsgUpdateClient_pb.fromPartial := fromPartial;
     MsgUpdateClient_pb.encode := encode;
     MsgUpdateClient_pb.decode := decode |}.

End UpdateClient.

End Wire.

(** ** The bindings under Node.js: the writer of long strings

    Under Node.js protobufjs writes a string of 40 code units or more
    with [Buffer]'s [utf8Write], which puts U+FFFD in the place of
    every surrogate that stands alone; a shorter string goes through
    protobufjs's own writer, as in [Wire].  Reading is as in [Wire].
    The test [field !== ''] gives the same answer on the string and on
    the string as written. *)

Module Node.

Definition replacement_character : string :=
  String (ascii_of_N 239) (String (ascii_of_N 191) (String (ascii_of_N 189) "")).

(** [buf.utf8Write(s, pos)], as the bytes it writes: three bytes that
    start with [ED A0..BF] are a surrogate standing alone. *)
Fixpoint utf8Write (s : string) : string :=
  match s with
  | EmptyString => EmptyString
  | String a r1 =>
      match r1 with
      | String b (String c r3) =>
          if in_range 237 237 a && in_range 160 191 b
          then (replacement_character ++ utf8Write r3)%string
          else String a (utf8Write r1)
      | _ => String a (utf8Write r1)
      end
  end.

(** [s.length]: the number of UTF-16 code units, two for a code point
    of four bytes and one for any other. *)
Fixpoint utf16_length (s : string) : nat :=
  match s with
  | EmptyString => 0
  | String a rest =>
      (if continuation a then 0 else if in_range 240 247 a then 2 else 1)
      + utf16_length rest
  end.

(** [writeStringBuffer]: [if (val.length < 40) util.utf8.write(...)
    else buf.utf8Write(...)]. *)
Definition writeStringBuffer (s : string) : string :=
  if Nat.leb 40 (utf16_length s) then utf8Write s else s.

Definition written (v : JsValue) : JsValue :=
  match v with
  | JString s => JString (writeStringBuffer s)
  | _ => v
  end.

Definition written_Any (v : JsValue) : JsValue :=
  match Any.of_js v with
  | Some a => Any.to_js (Any.mk (writeStringBuffer (Any.typeUrl a)) (Any.value a))
  | None => v
  end.

Module StoreCode.

Definition encode (p : MsgStoreCode_pb.t) : Completion bytes :=
  Wire.StoreCode.encode
    (MsgStoreCode_pb.mk
       (written (MsgStoreCode_pb.creator p)) (written (MsgStoreCode_pb.admin p))
       (written (MsgStoreCode_pb.code p)) (written (MsgStoreCode_pb.params p))).

Definition binding : MsgStoreCode_pb.binding :=
  {| MsgStoreCode_pb.fromPartial := Wire.StoreCode.fromPartial;
     MsgStoreCode_pb.encode := encode;
     MsgStoreCode_pb.decode := Wire.StoreCode.decode |}.

End StoreCode.

Module UpdateClient.

Definition encode (p : MsgUpdateClient_pb.t) : Completion bytes :=
  Wire.UpdateClient.encode
    (MsgUpdateClient_pb.mk
       (written (MsgUpdateClient_pb.clientId p))
       (written_Any (MsgUpdateClient_pb.clientMessage p))
       (written (MsgUpdateClient_pb.signer p))).

Definition binding : MsgUpdateClient_pb.binding :=
  {| MsgUpdateClient_pb.fromPartial := Wire.UpdateClient.fromPartial;
     MsgUpdateClient_pb.encode := encode;
     MsgUpdateClient_pb.decode := Wire.UpdateClient.decode |}.

End UpdateClient.

End Node.

(** ** A stand-in for the signing libraries

    Functions that obey the contracts stated for the libraries and run
    inside Rocq, to evaluate [RawKey] on concrete keys.  They offer no
    security: the digest is the payload cut or padded to 32 bytes, and
    the signature is the digest followed by the secret. *)

Module Toy.

Definition valid_secret (k : bytes) : bool :=
  Nat.eqb (List.length k) 32 && existsb (fun b => negb (Byte.eqb b x00)) k.

Definition pad32 (filler : byte) (b : bytes) : bytes :=
  firstn 32 (b ++ repeat filler 32)%list.

Definition hash : hashes :=
  {| SHA256_hash := pad32 x00;
     keccak256 := fun payload => pad32 xff (rev payload) |}.

Definition lib : secp256k1.lib nat :=
  {| secp256k1.publicKeyCreate := fun secret compressed =>
       if valid_secret secret
       then Return ((if compressed then x02 else x04) :: secret)
       else Throw (Error "Expected private key to be an Uint8Array with length 32");
     secp256k1.ecdsaSign := fun _ digest secret =>
       if valid_secret secret && Nat.eqb (List.length digest) 32
       then Return {| secp256k1.signature := (digest ++ secret)%list;
                      secp256k1.recid := 1 |}
       else Throw (Error "Expected message to be an Uint8Array with length 32") |}.

Definition secret : bytes := repeat x07 32.

Definition payload : bytes := list_byte_of_string "sign me".

(** The keys [new RawKey(secret)], [new RawKey(secret, false)] and
    [new RawKey(secret, true)]. *)
Definition standard_key : RawKey.t :=
  RawKey.mk (SimplePublicKey (toString_base64 (x02 :: secret))) None secret.

Definition standard_key_false : RawKey.t :=
  RawKey.mk (SimplePublicKey (toString_base64 (x02 :: secret))) (Some false) secret.

Definition injective_key : RawKey.t :=
  RawKey.mk (InjectivePubKey (toString_base64 (x02 :: secret))) (Some true) secret.

End Toy.

(** ** The messages of the concrete scenarios *)

Definition store_code_example : MsgStoreCode.t :=
  MsgStoreCode.new (JString "acc1...") (JString "acc1...")
    (JString "contract-source") (JString "{}").

Definition header_example : Any.t := Any.mk "/x.Header" [x01; x02].

Definition update_client_example : MsgUpdateClient.t :=
  MsgUpdateClient.new (JString "07-tendermint-0") (Any.to_js header_example)
    (JString "acc1...").

(** ** Payloads and messages of further scenarios *)

(** [v === undefined || v === null]. *)
Definition is_nullish (v : JsValue) : bool :=
  match v with
  | JUndefined | JNull => true
  | _ => false
  end.

(** The interface [MsgUpdateClient.Data], matched by the members an
    object has: the tag, two strings, and an optional [Any]. *)
Definition MsgUpdateClient_is_Data (data : JsValue) : bool :=
  is_object data
  && has_tag (property data "@type") "/ibc.core.client.v1.MsgUpdateClient"
  && is_string (property data "client_id")
  && MsgUpdateClient_pb.is_optional_Any (property data "clientMessage")
  && is_string (property data "signer").

(** The Data payload of the example message as another producer could
    write it: members in another order, and one member more. *)
Definition reordered_data_example : JsValue :=
  JObject [("params", JString "{}");
           ("memo", JString "by hand");
           ("code", JString "contract-source");
           ("admin", JString "acc1...");
           ("creator", JString "acc1...");
           ("@type", JString "/jax.MsgStoreCode")].

(** The same four fields under the tag of another message. *)
Definition mistagged_data_example : JsValue :=
  JObject [("@type", JString "/cosmos.bank.v1beta1.MsgSend");
           ("creator", JString "acc1...");
           ("admin", JString "acc1...");
           ("code", JString "contract-source");
           ("params", JString "{}")].

Definition reordered_amino_example : JsValue :=
  JObject [("value", JObject [("params", JString "{}");
                              ("code", JString "contract-source");
                              ("admin", JString "acc1...");
                              ("creator", JString "acc1...")]);
           ("memo", JString "by hand");
           ("type", JString "jax/MsgStoreCode")].

Definition mistagged_amino_example : JsValue :=
  JObject [("type", JString "wasm/MsgStoreCode");
           ("value", JObject [("creator", JString "acc1...");
                              ("admin", JString "acc1...");
                              ("code", JString "contract-source");
                              ("params", JString "{}")])].

(** A second well-typed message, with another creator. *)
Definition store_code_other_example : MsgStoreCode.t :=
  MsgStoreCode.new (JString "acc2...") (JString "acc1...")
    (JString "contract-source") (JString "{}").

(** ** Messages with a surrogate that stands alone *)

(** U+D800 standing alone. *)
Definition lone_surrogate : string :=
  String (ascii_of_N 237) (String (ascii_of_N 160) (String (ascii_of_N 128) "")).

Definition long_address : string := "acc1qqqqqqqqqqqqqqqqqqqqqqqqqqqqqqqqqqqqqqqqq".

(** A message of the declared types whose creator is 45 characters
    followed by the lone surrogate, and the message that has U+FFFD in
    its place. *)
Definition lone_surrogate_example : MsgStoreCode.t :=
  MsgStoreCode.new (JString (long_address ++ lone_surrogate)%string)
    (JString "acc1...") (JString "contract-source") (JString "{}").

Definition replaced_surrogate_example : MsgStoreCode.t :=
  MsgStoreCode.new (JString (long_address ++ Node.replacement_character)%string)
    (JString "acc1...") (JString "contract-source") (JString "{}").

(** * Proofs *)

Unset Implicit Arguments.
Open Scope list_scope.

(** * Lemmas on the text encodings *)

Lemma hex_digits_of_byte (x : byte) :
  hex_value (hex_digit (Byte.to_N x / 16)) = Some (Byte.to_N x / 16)%N
  /\ hex_value (hex_digit (Byte.to_N x mod 16)) = Some (Byte.to_N x mod 16)%N
  /\ byte_of_N (16 * (Byte.to_N x / 16) + Byte.to_N x mod 16) = x.
Proof.
  destruct x; vm_compute; repeat split.
Qed.

(** Reading back the hexadecimal text of a byte string gives the byte
    string. *)
Lemma Buffer_from_hex_stringify (b : bytes) :
  Buffer_from_hex (Hex_stringify b) = b.
Proof.
  induction b as [|x rest IH]; [reflexivity|].
  destruct (hex_digits_of_byte x) as (Hhi & Hlo & Hx).
  cbn [Hex_stringify Buffer_from_hex].
  rewrite Hhi, Hlo, Hx, IH. reflexivity.
Qed.

Example Hex_stringify_bytes : Hex_stringify [x00; xff; x1a] = "00ff1a".
Proof. reflexivity. Qed.

Example Buffer_from_hex_stops : Buffer_from_hex "00FF1azz11" = [x00; xff; x1a].
Proof. reflexivity. Qed.

Example toString_base64_padding :
  toString_base64 (list_byte_of_string "Man") = "TWFu"
  /\ toString_base64 (list_byte_of_string "Ma") = "TWE="
  /\ toString_base64 (list_byte_of_string "M") = "TQ==".
Proof. repeat split. Qed.

Lemma to_N_byte_of_N (n : N) : (n < 256)%N -> Byte.to_N (byte_of_N n) = n.
Proof.
  intros Hn. unfold byte_of_N.
  destruct (Byte.of_N n) as [b|] eqn:E.
  - now apply Byte.to_of_N.
  - apply Byte.of_N_None_iff in E. lia.
Qed.

(** * Lemmas on the wire format *)

Lemma read_varint_aux (fuel : nat) :
  forall n rest,
    (n < 128 * 2 ^ N.of_nat fuel)%N ->
    Wire.read_varint (Wire.varint_aux fuel n ++ rest) = Return (n, rest).
Proof.
  induction fuel as [|f IH]; intros n rest Hn.
  - cbn [Wire.varint_aux app Wire.read_varint].
    change (2 ^ N.of_nat 0)%N with 1%N in Hn.
    rewrite to_N_byte_of_N by lia.
    destruct (N.ltb_spec n 128); [reflexivity | lia].
  - cbn [Wire.varint_aux].
    destruct (N.ltb_spec n 128) as [Hs|Hl].
    + cbn [app Wire.read_varint]. rewrite to_N_byte_of_N by lia.
      destruct (N.ltb_spec n 128); [reflexivity | lia].
    + cbn [app Wire.read_varint].
      assert (Hm : (n mod 128 < 128)%N) by (apply N.mod_lt; lia).
      rewrite to_N_byte_of_N by lia.
      destruct (N.ltb_spec (128 + n mod 128) 128) as [Hc|_];
        [pose proof (N.le_0_l (n mod 128)); lia|].
      rewrite IH.
      * cbn [bind fst snd]. f_equal. f_equal.
        pose proof (N.div_mod n 128) as Hd.
        generalize dependent (n mod 128)%N. generalize dependent (n / 128)%N.
        intros; lia.
      * rewrite Nat2N.inj_succ, N.pow_succ_r' in Hn.
        apply N.Div0.div_lt_upper_bound.
        assert (0 < 2 ^ N.of_nat f)%N by (apply N.neq_0_lt_0, N.pow_nonzero; lia).
        lia.
Qed.

Lemma read_varint_varint (n : N) (rest : bytes) :
  Wire.read_varint (Wire.varint n ++ rest) = Return (n, rest).
Proof.
  unfold Wire.varint. apply read_varint_aux.
  rewrite N2Nat.id.
  destruct (N.eq_dec n 0) as [->|Hn]; [reflexivity|].
  destruct (N.log2_spec n) as [_ Hlt]; [lia|].
  rewrite N.pow_succ_r' in Hlt. lia.
Qed.

Example varint_300 : Wire.varint 300 = [xac; x02].
Proof. reflexivity. Qed.

Lemma varint_not_nil (n : N) : Wire.varint n <> [].
Proof.
  unfold Wire.varint. destruct (N.to_nat (N.log2 n)); cbn [Wire.varint_aux].
  - discriminate.
  - destruct (n <? 128)%N; discriminate.
Qed.

Lemma read_delimited_delimited (payload rest : bytes) :
  Wire.read_delimited (Wire.delimited payload ++ rest) = Return (payload, rest).
Proof.
  unfold Wire.read_delimited, Wire.delimited.
  rewrite <- app_assoc, read_varint_varint. cbn [bind fst snd].
  unfold Wire.take. rewrite length_app.
  destruct (N.ltb_spec (N.of_nat (List.length payload + List.length rest))
              (N.of_nat (List.length payload))) as [Hc|_]; [lia|].
  rewrite Nat2N.id, firstn_app, skipn_app, Nat.sub_diag, firstn_all, skipn_all.
  cbn [firstn skipn app]. now rewrite app_nil_r.
Qed.


Lemma read_varint_one_byte (x : byte) (rest : bytes) :
  (Byte.to_N x <? 128)%N = true ->
  Wire.read_varint (x :: rest) = Return (Byte.to_N x, rest).
Proof. intros Hx. cbn [Wire.read_varint]. now rewrite Hx. Qed.

Lemma field_value_base (s : string) : Wire.field_value s (JString "") = JString s.
Proof.
  unfold Wire.field_value. destruct (String.eqb_spec s ""); congruence.
Qed.

Lemma length_after_field (f : nat) (x : byte) (s rest : bytes) :
  (List.length (x :: Wire.delimited s ++ rest) <= S f)%nat ->
  (List.length rest <= f)%nat.
Proof. cbn [List.length]. rewrite length_app. lia. Qed.

(** One turn of a decoding loop over a field whose tag fits one byte:
    the loop reads the tag, picks the field by its number, reads the
    length-delimited bytes and goes on with what follows. *)
Ltac turn loop tag :=
  let b := eval vm_compute in (Wire.varint tag) in
  change (Wire.varint tag) with b;
  cbn [app loop];
  rewrite read_varint_one_byte by reflexivity;
  cbn [bind fst snd];
  match goal with
  | |- context [(Byte.to_N ?x / 8)%N] =>
      let v := eval vm_compute in (Byte.to_N x / 8)%N in
      change (Byte.to_N x / 8)%N with v
  end;
  cbv iota;
  rewrite read_delimited_delimited;
  cbn [bind fst snd].

(** A string field at the head of the input: skipped when it is empty,
    one turn of the loop otherwise. *)
Ltac string_field_head loop tag s Hlen :=
  let b := eval vm_compute in (Wire.varint tag) in
  revert Hlen;
  change (Wire.field_bytes tag s)
    with (if String.eqb s "" then []
          else b ++ Wire.delimited (list_byte_of_string s));
  unfold Wire.field_value at 1;
  destruct (String.eqb_spec s "") as [->|_];
  cbn [app]; rewrite <- ?app_assoc; intros Hlen;
  [ idtac
  | match type of Hlen with
    | (_ <= ?f)%nat =>
        destruct f as [|f];
        [ exfalso; revert Hlen; cbn [List.length]; lia
        | apply length_after_field in Hlen;
          change b with (Wire.varint tag);
          turn loop tag;
          rewrite string_of_list_byte_of_string ]
    end ].

Section StoreCodeWire.

Import MsgStoreCode_pb.

Lemma StoreCode_loop_nil (f : nat) (msg : t) :
  Wire.StoreCode.decode_loop f [] msg = Return msg.
Proof. destruct f; reflexivity. Qed.

Lemma StoreCode_loop_params (pa : string) (f : nat) (msg : t) :
  (List.length (Wire.field_bytes 34 pa) <= f)%nat ->
  Wire.StoreCode.decode_loop f (Wire.field_bytes 34 pa) msg
  = Return (mk (creator msg) (admin msg) (code msg) (Wire.field_value pa (params msg))).
Proof.
  intros Hlen. rewrite <- (app_nil_r (Wire.field_bytes 34 pa)) in *.
  string_field_head Wire.StoreCode.decode_loop 34%N pa Hlen;
    rewrite StoreCode_loop_nil; now destruct msg.
Qed.

Lemma StoreCode_loop_code (co pa : string) (f : nat) (msg : t) :
  (List.length (Wire.field_bytes 26 co ++ Wire.field_bytes 34 pa) <= f)%nat ->
  Wire.StoreCode.decode_loop f (Wire.field_bytes 26 co ++ Wire.field_bytes 34 pa) msg
  = Return (mk (creator msg) (admin msg) (Wire.field_value co (code msg))
               (Wire.field_value pa (params msg))).
Proof.
  intros Hlen.
  string_field_head Wire.StoreCode.decode_loop 26%N co Hlen;
    now rewrite StoreCode_loop_params.
Qed.

Lemma StoreCode_loop_admin (a co pa : string) (f : nat) (msg : t) :
  (List.length (Wire.field_bytes 18 a ++ Wire.field_bytes 26 co ++ Wire.field_bytes 34 pa) <= f)%nat ->
  Wire.StoreCode.decode_loop f
    (Wire.field_bytes 18 a ++ Wire.field_bytes 26 co ++ Wire.field_bytes 34 pa) msg
  = Return (mk (creator msg) (Wire.field_value a (admin msg)) (Wire.field_value co (code msg))
               (Wire.field_value pa (params msg))).
Proof.
  intros Hlen.
  string_field_head Wire.StoreCode.decode_loop 18%N a Hlen;
    now rewrite StoreCode_loop_code.
Qed.

Lemma StoreCode_loop_creator (c a co pa : string) (f : nat) (msg : t) :
  (List.length (Wire.field_bytes 10 c ++ Wire.field_bytes 18 a
                ++ Wire.field_bytes 26 co ++ Wire.field_bytes 34 pa) <= f)%nat ->
  Wire.StoreCode.decode_loop f
    (Wire.field_bytes 10 c ++ Wire.field_bytes 18 a ++ Wire.field_bytes 26 co ++ Wire.field_bytes 34 pa) msg
  = Return (mk (Wire.field_value c (creator msg)) (Wire.field_value a (admin msg))
               (Wire.field_value co (code msg)) (Wire.field_value pa (params msg))).
Proof.
  intros Hlen.
  string_field_head Wire.StoreCode.decode_loop 10%N c Hlen;
    now rewrite StoreCode_loop_admin.
Qed.

(** The wire format of [MsgStoreCode] is read back as it was written. *)
Lemma StoreCode_wire_decode_encode :
  MsgStoreCode_pb.decode_encode Wire.StoreCode.binding.
Proof.
  intros [c a co pa] Hwt _. unfold wt in Hwt. cbn [creator admin code params] in Hwt.
  destruct c as [| | | |c| |]; try discriminate Hwt.
  destruct a as [| | | |a| |]; try discriminate Hwt.
  destruct co as [| | | |co| |]; try discriminate Hwt.
  destruct pa as [| | | |pa| |]; try discriminate Hwt.
  exists (Wire.field_bytes 10 c ++ Wire.field_bytes 18 a ++ Wire.field_bytes 26 co ++ Wire.field_bytes 34 pa).
  split; [reflexivity|].
  cbn [decode Wire.StoreCode.binding]. unfold Wire.StoreCode.decode.
  rewrite StoreCode_loop_creator by reflexivity.
  unfold Wire.StoreCode.createBase. cbn [creator admin code params].
  now rewrite !field_value_base.
Qed.

Lemma StoreCode_wire_fromPartial :
  MsgStoreCode_pb.fromPartial_copies Wire.StoreCode.binding.
Proof.
  intros [c a co pa] Hwt. unfold wt in Hwt. cbn [creator admin code params] in Hwt.
  destruct c; try discriminate Hwt; destruct a; try discriminate Hwt;
    destruct co; try discriminate Hwt; destruct pa; try discriminate Hwt.
  reflexivity.
Qed.

End StoreCodeWire.


Lemma Any_of_js_to_js (a : Any.t) : Any.of_js (Any.to_js a) = Some a.
Proof. now destruct a. Qed.

Lemma Any_of_js_Some (v : JsValue) (a : Any.t) :
  Any.of_js v = Some a -> v = Any.to_js a.
Proof.
  unfold Any.of_js. intros Hv.
  destruct v as [| | | | | |[|[k1 [| | | |u| |]] [|[k2 [| | | | |b|]] [|]]]]; try discriminate Hv.
  destruct (String.eqb_spec k1 "typeUrl") as [->|]; [|discriminate Hv].
  destruct (String.eqb_spec k2 "value") as [->|]; [|discriminate Hv].
  cbn [andb] in Hv. now inversion Hv.
Qed.

Section AnyWire.

Lemma Any_loop_nil (f : nat) (msg : Any.t) :
  Wire.AnyMsg.decode_loop f [] msg = Return msg.
Proof. destruct f; reflexivity. Qed.

Lemma Any_loop_value (b : bytes) (f : nat) (msg : Any.t) :
  (List.length (Wire.AnyMsg.value_bytes b) <= f)%nat ->
  Wire.AnyMsg.decode_loop f (Wire.AnyMsg.value_bytes b) msg
  = Return (Any.mk (Any.typeUrl msg)
              (match b with [] => Any.value msg | _ => b end)).
Proof.
  intros Hlen. destruct b as [|x b].
  - cbn [Wire.AnyMsg.value_bytes]. rewrite Any_loop_nil. now destruct msg.
  - revert Hlen. unfold Wire.AnyMsg.value_bytes.
    rewrite <- (app_nil_r (Wire.delimited (x :: b))).
    change (Wire.varint 18) with [x12]. cbn [app]. intros Hlen.
    destruct f as [|f]; [exfalso; revert Hlen; cbn [List.length]; lia|].
    change [x12] with (Wire.varint 18).
    turn Wire.AnyMsg.decode_loop 18%N.
    now rewrite Any_loop_nil.
Qed.

Lemma Any_loop_typeUrl (u : string) (b : bytes) (f : nat) (msg : Any.t) :
  (List.length (Wire.field_bytes 10 u ++ Wire.AnyMsg.value_bytes b) <= f)%nat ->
  Wire.AnyMsg.decode_loop f (Wire.field_bytes 10 u ++ Wire.AnyMsg.value_bytes b) msg
  = Return (Any.mk (if String.eqb u "" then Any.typeUrl msg else u)
              (match b with [] => Any.value msg | _ => b end)).
Proof.
  intros Hlen. revert Hlen.
  change (Wire.field_bytes 10 u)
    with (if String.eqb u "" then []
          else [x0a] ++ Wire.delimited (list_byte_of_string u)).
  destruct (String.eqb_spec u "") as [->|_]; cbn [app]; rewrite <- ?app_assoc; intros Hlen.
  - now rewrite Any_loop_value.
  - destruct f as [|f]; [exfalso; revert Hlen; cbn [List.length]; lia|].
    apply length_after_field in Hlen.
    turn Wire.AnyMsg.decode_loop 10%N.
    rewrite string_of_list_byte_of_string.
    now rewrite Any_loop_value.
Qed.

(** An [Any] is read back as it was written. *)
Lemma Any_wire_decode_encode (a : Any.t) :
  Wire.AnyMsg.decode (Wire.AnyMsg.encode a) = Return a.
Proof.
  destruct a as [u b]. unfold Wire.AnyMsg.decode, Wire.AnyMsg.encode.
  cbn [Any.typeUrl Any.value].
  change (Wire.AnyMsg.decode_loop ?f ?x Wire.AnyMsg.createBase)
    with (Wire.AnyMsg.decode_loop f (Wire.field_bytes 10 u ++ Wire.AnyMsg.value_bytes b)
            Wire.AnyMsg.createBase).
  rewrite Any_loop_typeUrl by reflexivity.
  unfold Wire.AnyMsg.createBase. cbn [Any.typeUrl Any.value].
  destruct (String.eqb_spec u "") as [->|_]; now destruct b.
Qed.

End AnyWire.


Section UpdateClientWire.

Import MsgUpdateClient_pb.

Lemma UpdateClient_loop_nil (f : nat) (msg : t) :
  Wire.UpdateClient.decode_loop f [] msg = Return msg.
Proof. destruct f; reflexivity. Qed.

Lemma UpdateClient_loop_signer (s : string) (f : nat) (msg : t) :
  (List.length (Wire.field_bytes 26 s) <= f)%nat ->
  Wire.UpdateClient.decode_loop f (Wire.field_bytes 26 s) msg
  = Return (mk (clientId msg) (clientMessage msg) (Wire.field_value s (signer msg))).
Proof.
  intros Hlen. rewrite <- (app_nil_r (Wire.field_bytes 26 s)) in *.
  string_field_head Wire.UpdateClient.decode_loop 26%N s Hlen;
    rewrite UpdateClient_loop_nil; now destruct msg.
Qed.

Lemma UpdateClient_loop_message (cm : JsValue) (s : string) (f : nat) (msg : t) :
  is_optional_Any cm = true ->
  (List.length (Wire.UpdateClient.message_bytes cm ++ Wire.field_bytes 26 s) <= f)%nat ->
  Wire.UpdateClient.decode_loop f (Wire.UpdateClient.message_bytes cm ++ Wire.field_bytes 26 s) msg
  = Return (mk (clientId msg)
              (match cm with JUndefined => clientMessage msg | _ => cm end)
              (Wire.field_value s (signer msg))).
Proof.
  intros Hcm Hlen. unfold is_optional_Any in Hcm. revert Hlen. unfold Wire.UpdateClient.message_bytes.
  destruct (Any.of_js cm) as [a|] eqn:Ha.
  - apply Any_of_js_Some in Ha. subst cm.
    change (Wire.varint 18) with [x12]. cbn [app]. rewrite <- ?app_assoc. intros Hlen.
    destruct f as [|f]; [exfalso; revert Hlen; cbn [List.length]; lia|].
    apply length_after_field in Hlen.
    turn Wire.UpdateClient.decode_loop 18%N.
    rewrite Any_wire_decode_encode. cbn [bind].
    now rewrite UpdateClient_loop_signer.
  - cbn [app]. intros Hlen.
    destruct cm; try discriminate Hcm.
    now rewrite UpdateClient_loop_signer.
Qed.

Lemma UpdateClient_loop_clientId (c : string) (cm : JsValue) (s : string)
    (f : nat) (msg : t) :
  is_optional_Any cm = true ->
  (List.length (Wire.field_bytes 10 c ++ Wire.UpdateClient.message_bytes cm ++ Wire.field_bytes 26 s) <= f)%nat ->
  Wire.UpdateClient.decode_loop f
    (Wire.field_bytes 10 c ++ Wire.UpdateClient.message_bytes cm ++ Wire.field_bytes 26 s) msg
  = Return (mk (Wire.field_value c (clientId msg))
              (match cm with JUndefined => clientMessage msg | _ => cm end)
              (Wire.field_value s (signer msg))).
Proof.
  intros Hcm Hlen.
  string_field_head Wire.UpdateClient.decode_loop 10%N c Hlen;
    now rewrite UpdateClient_loop_message.
Qed.

Lemma message_field_bytes (cm : JsValue) :
  is_optional_Any cm = true ->
  Wire.UpdateClient.message_field cm = Return (Wire.UpdateClient.message_bytes cm).
Proof.
  unfold is_optional_Any, Wire.UpdateClient.message_field, Wire.UpdateClient.message_bytes.
  destruct cm; try reflexivity;
    destruct (Any.of_js _); (reflexivity || discriminate).
Qed.

(** The wire format of [MsgUpdateClient] is read back as it was
    written. *)
Lemma UpdateClient_wire_decode_encode :
  MsgUpdateClient_pb.decode_encode Wire.UpdateClient.binding.
Proof.
  intros [c cm s] Hwt _. unfold wt in Hwt. cbn [clientId clientMessage signer] in Hwt.
  destruct c as [| | | |c| |]; try discriminate Hwt.
  apply andb_prop in Hwt as [Hcm Hs]. cbn [is_string andb] in Hcm.
  destruct s as [| | | |s| |]; try discriminate Hs.
  exists (Wire.field_bytes 10 c ++ Wire.UpdateClient.message_bytes cm ++ Wire.field_bytes 26 s).
  split.
  - cbn [encode Wire.UpdateClient.binding]. unfold Wire.UpdateClient.encode.
    cbn [clientId clientMessage signer].
    rewrite message_field_bytes by assumption. reflexivity.
  - cbn [decode Wire.UpdateClient.binding]. unfold Wire.UpdateClient.decode.
    rewrite UpdateClient_loop_clientId by (assumption || reflexivity).
    unfold Wire.UpdateClient.createBase. cbn [clientId clientMessage signer].
    rewrite !field_value_base. now destruct cm.
Qed.

Lemma UpdateClient_wire_fromPartial :
  MsgUpdateClient_pb.fromPartial_copies Wire.UpdateClient.binding.
Proof.
  intros [c cm s] Hwt. unfold wt in Hwt. cbn [clientId clientMessage signer] in Hwt.
  destruct c as [| | | |c| |]; try discriminate Hwt.
  apply andb_prop in Hwt as [Hcm Hs]. cbn [is_string andb] in Hcm.
  destruct s as [| | | |s| |]; try discriminate Hs.
  cbn [fromPartial Wire.UpdateClient.binding]. unfold Wire.UpdateClient.fromPartial.
  cbn [clientId clientMessage signer Wire.nullish].
  unfold is_optional_Any in Hcm.
  destruct (Any.of_js cm) as [a|] eqn:Ha.
  - apply Any_of_js_Some in Ha. subst cm. reflexivity.
  - destruct cm; try discriminate Hcm. reflexivity.
Qed.

End UpdateClientWire.

(** * Lemmas on strings and on the writer of Node.js *)

Lemma utf8Write_keeps_head (a : ascii) (r : string) :
  in_range 237 237 a = false ->
  Node.utf8Write (String a r) = String a (Node.utf8Write r).
Proof.
  intros Ha. destruct r as [|b [|c r3]]; cbn [Node.utf8Write]; try reflexivity.
  now rewrite Ha.
Qed.

Lemma utf8Write_keeps_head_by_next (a b : ascii) (r : string) :
  in_range 160 191 b = false ->
  Node.utf8Write (String a (String b r))
  = String a (Node.utf8Write (String b r)).
Proof.
  intros Hb. destruct r as [|c r3]; cbn [Node.utf8Write]; try reflexivity.
  now rewrite Hb, andb_false_r.
Qed.

Lemma in_range_widen (lo hi lo' hi' : N) (a : ascii) :
  in_range lo hi a = true -> (lo' <= lo)%N -> (hi <= hi')%N ->
  in_range lo' hi' a = true.
Proof.
  unfold in_range. intros Ha Hlo Hhi. apply andb_prop in Ha as [H1 H2].
  apply N.leb_le in H1, H2. apply andb_true_intro; split; apply N.leb_le; lia.
Qed.

Lemma in_range_apart (lo hi lo' hi' : N) (a : ascii) :
  in_range lo hi a = true -> (hi < lo' \/ hi' < lo)%N ->
  in_range lo' hi' a = false.
Proof.
  unfold in_range. intros Ha Hr. apply andb_prop in Ha as [H1 H2].
  apply N.leb_le in H1, H2. apply andb_false_iff.
  destruct (N.leb_spec lo' (N_of_ascii a)); [right; apply N.leb_gt; lia | now left].
Qed.

Lemma continuation_not_237 (a : ascii) :
  continuation a = true -> in_range 237 237 a = false.
Proof. intros Ha. apply (in_range_apart 128 191); [exact Ha | lia]. Qed.

(** The first two bytes of a well-formed code point of three bytes do
    not start a surrogate, and the second is a continuation byte. *)
Lemma three_bytes_no_surrogate (a b : ascii) :
  three_bytes a b = true ->
  continuation b = true
  /\ (in_range 237 237 a = false \/ in_range 160 191 b = false).
Proof.
  unfold three_bytes. intros H.
  repeat (apply orb_prop in H as [H|H]); apply andb_prop in H as [Ha Hb].
  - split; [apply (in_range_widen 160 191); (assumption || lia)|].
    left. apply (in_range_apart 224 224); [exact Ha | lia].
  - split; [exact Hb|]. left. apply (in_range_apart 225 236); [exact Ha | lia].
  - split; [apply (in_range_widen 128 159); (assumption || lia)|].
    right. apply (in_range_apart 128 159); [exact Hb | lia].
  - split; [exact Hb|]. left. apply (in_range_apart 238 239); [exact Ha | lia].
Qed.

Lemma four_bytes_no_surrogate (a b : ascii) :
  four_bytes a b = true ->
  in_range 237 237 a = false /\ continuation b = true.
Proof.
  unfold four_bytes. intros H.
  repeat (apply orb_prop in H as [H|H]); apply andb_prop in H as [Ha Hb].
  - split; [apply (in_range_apart 240 240); [exact Ha | lia]|].
    apply (in_range_widen 144 191); (assumption || lia).
  - split; [apply (in_range_apart 241 243); [exact Ha | lia] | exact Hb].
  - split; [apply (in_range_apart 244 244); [exact Ha | lia]|].
    apply (in_range_widen 128 143); (assumption || lia).
Qed.

Lemma utf8Write_well_formed_aux (n : nat) :
  forall s, (String.length s <= n)%nat ->
    isWellFormed s = true -> Node.utf8Write s = s.
Proof.
  induction n as [|n IH]; intros s Hlen Hs.
  - destruct s; [reflexivity | cbn in Hlen; lia].
  - destruct s as [|a r1]; [reflexivity|].
    cbn [String.length] in Hlen. cbn [isWellFormed] in Hs.
    assert (Hstep : forall b' r, continuation b' = true ->
              Node.utf8Write (String b' r) = String b' (Node.utf8Write r))
      by (intros; now apply utf8Write_keeps_head, continuation_not_237).
    destruct (in_range 0 127 a) eqn:A1.
    { rewrite utf8Write_keeps_head
        by (apply (in_range_apart 0 127); [exact A1 | lia]).
      now rewrite IH by (assumption || lia). }
    destruct r1 as [|b r2]; [discriminate|]. cbn [String.length] in Hlen.
    destruct (in_range 194 223 a) eqn:A2.
    { apply andb_prop in Hs as [Hb Hs].
      rewrite utf8Write_keeps_head
        by (apply (in_range_apart 194 223); [exact A2 | lia]).
      rewrite Hstep by assumption.
      now rewrite IH by (assumption || lia). }
    destruct r2 as [|c r3]; [discriminate|]. cbn [String.length] in Hlen.
    destruct (three_bytes a b) eqn:A3.
    { apply andb_prop in Hs as [Hc Hs].
      destruct (three_bytes_no_surrogate a b A3) as [Hb [Ha|Hb']].
      - rewrite utf8Write_keeps_head by exact Ha.
        rewrite !Hstep by assumption. now rewrite IH by (assumption || lia).
      - rewrite utf8Write_keeps_head_by_next by exact Hb'.
        rewrite !Hstep by assumption. now rewrite IH by (assumption || lia). }
    destruct r3 as [|d r4]; [discriminate|]. cbn [String.length] in Hlen.
    apply andb_prop in Hs as [Hs Hr]. apply andb_prop in Hs as [Hs Hd].
    apply andb_prop in Hs as [A4 Hc].
    destruct (four_bytes_no_surrogate a b A4) as [Ha Hb].
    rewrite utf8Write_keeps_head by exact Ha.
    rewrite !Hstep by assumption. now rewrite IH by (assumption || lia).
Qed.

(** [utf8Write] changes nothing in a well-formed string. *)
Lemma utf8Write_well_formed (s : string) :
  isWellFormed s = true -> Node.utf8Write s = s.
Proof. apply (utf8Write_well_formed_aux (String.length s)). lia. Qed.

Lemma writeStringBuffer_well_formed (s : string) :
  isWellFormed s = true -> Node.writeStringBuffer s = s.
Proof.
  intros Hs. unfold Node.writeStringBuffer.
  destruct (Nat.leb 40 (Node.utf16_length s)); [|reflexivity].
  now apply utf8Write_well_formed.
Qed.

Lemma written_well_formed (v : JsValue) :
  well_formed_value v = true -> Node.written v = v.
Proof.
  destruct v; try reflexivity. cbn [well_formed_value Node.written].
  intros Hs. now rewrite writeStringBuffer_well_formed.
Qed.

Example isWellFormed_examples :
  isWellFormed "contract-source" = true
  /\ isWellFormed Node.replacement_character = true
  /\ isWellFormed lone_surrogate = false
  /\ Node.utf16_length (long_address ++ lone_surrogate)%string = 46%nat
  /\ Node.writeStringBuffer (long_address ++ lone_surrogate)%string
     = (long_address ++ Node.replacement_character)%string
  /\ Node.writeStringBuffer ("acc1" ++ lone_surrogate)%string
     = ("acc1" ++ lone_surrogate)%string.
Proof. repeat split. Qed.

(** The bindings under Node.js keep the contracts. *)
Lemma Node_StoreCode_fromPartial :
  MsgStoreCode_pb.fromPartial_copies Node.StoreCode.binding.
Proof. exact StoreCode_wire_fromPartial. Qed.

Lemma Node_StoreCode_decode_encode :
  MsgStoreCode_pb.decode_encode Node.StoreCode.binding.
Proof.
  intros p Hwt Hwf.
  destruct (StoreCode_wire_decode_encode p Hwt Hwf) as (b & Henc & Hdec).
  exists b. split; [|exact Hdec].
  cbn [MsgStoreCode_pb.encode Node.StoreCode.binding]. unfold Node.StoreCode.encode.
  unfold MsgStoreCode_pb.wf in Hwf.
  repeat (apply andb_prop in Hwf as [Hwf ?]).
  rewrite !written_well_formed by assumption.
  destruct p. exact Henc.
Qed.

Lemma Node_UpdateClient_fromPartial :
  MsgUpdateClient_pb.fromPartial_copies Node.UpdateClient.binding.
Proof. exact UpdateClient_wire_fromPartial. Qed.

Lemma written_Any_well_formed (v : JsValue) :
  well_formed_value (property v "typeUrl") = true -> Node.written_Any v = v.
Proof.
  unfold Node.written_Any. destruct (Any.of_js v) as [a|] eqn:Ha; [|reflexivity].
  apply Any_of_js_Some in Ha. subst v. destruct a as [u b].
  cbn. intros Hu. now rewrite writeStringBuffer_well_formed.
Qed.

Lemma Node_UpdateClient_decode_encode :
  MsgUpdateClient_pb.decode_encode Node.UpdateClient.binding.
Proof.
  intros p Hwt Hwf.
  destruct (UpdateClient_wire_decode_encode p Hwt Hwf) as (b & Henc & Hdec).
  exists b. split; [|exact Hdec].
  cbn [MsgUpdateClient_pb.encode Node.UpdateClient.binding].
  unfold Node.UpdateClient.encode.
  unfold MsgUpdateClient_pb.wf in Hwf.
  repeat (apply andb_prop in Hwf as [Hwf ?]).
  rewrite !written_well_formed, written_Any_well_formed by assumption.
  destruct p. exact Henc.
Qed.

(** * The message codec *)

(** C1. Round-trip law: for every [MsgStoreCode] and each of the shapes
    Amino, Data and Proto, and for every [MsgUpdateClient] and each of
    the shapes Data and Proto, decoding the encoding gives the message
    back, field for field.  The Proto shape goes through the generated
    [fromPartial], whose contract is a hypothesis, and holds for the
    messages that have the declared field types. *)
Theorem roundtrip_law (sc : MsgStoreCode_pb.binding) (uc : MsgUpdateClient_pb.binding) :
  MsgStoreCode_pb.fromPartial_copies sc ->
  MsgUpdateClient_pb.fromPartial_copies uc ->
  (forall m, MsgStoreCode.fromAmino (MsgStoreCode.toAmino m) = Return m)
  /\ (forall m, MsgStoreCode.fromData (MsgStoreCode.toData m) = Return m)
  /\ (forall m, MsgStoreCode.wt m = true ->
        MsgStoreCode.fromProto (MsgStoreCode.toProto sc m) = m)
  /\ (forall m, MsgUpdateClient.fromData (MsgUpdateClient.toData m) = Return m)
  /\ (forall m, MsgUpdateClient.wt m = true ->
        MsgUpdateClient.fromProto (MsgUpdateClient.toProto uc m) = m).
Proof.
  intros Hsc Huc. repeat split.
  - now intros [c a co pa].
  - now intros [c a co pa].
  - intros [c a co pa] Hwt. unfold MsgStoreCode.toProto.
    now rewrite Hsc.
  - now intros [c cm s].
  - intros [c cm s] Hwt. unfold MsgUpdateClient.toProto.
    now rewrite Huc.
Qed.

(** The round trips of the two example messages, the Proto ones through
    the bindings of the wire format. *)
Lemma roundtrip_law_witness :
  MsgStoreCode.fromAmino (MsgStoreCode.toAmino store_code_example)
    = Return store_code_example
  /\ MsgStoreCode.fromData (MsgStoreCode.toData store_code_example)
    = Return store_code_example
  /\ MsgStoreCode.fromProto
       (MsgStoreCode.toProto Wire.StoreCode.binding store_code_example)
    = store_code_example
  /\ MsgUpdateClient.fromData (MsgUpdateClient.toData update_client_example)
    = Return update_client_example
  /\ MsgUpdateClient.fromProto
       (MsgUpdateClient.toProto Wire.UpdateClient.binding update_client_example)
    = update_client_example.
Proof.
  destruct (roundtrip_law Wire.StoreCode.binding Wire.UpdateClient.binding
              StoreCode_wire_fromPartial UpdateClient_wire_fromPartial)
    as (A & D & P & D' & P').
  exact (conj (A store_code_example) (conj (D store_code_example)
    (conj (P store_code_example eq_refl)
      (conj (D' update_client_example) (P' update_client_example eq_refl))))).
Defined.

(** The bytes of the example message: four length-delimited fields. *)
Example store_code_example_bytes :
  MsgStoreCode_pb.encode Wire.StoreCode.binding
    (MsgStoreCode.toProto Wire.StoreCode.binding store_code_example)
  = Return ([x0a; x07] ++ list_byte_of_string "acc1..."
            ++ [x12; x07] ++ list_byte_of_string "acc1..."
            ++ [x1a; x0f] ++ list_byte_of_string "contract-source"
            ++ [x22; x02] ++ list_byte_of_string "{}").
Proof. reflexivity. Qed.

(** The Proto round trip needs the declared field types: a message
    with an [undefined] field, as [fromData] builds from an empty
    object, comes back with the empty string in its place. *)
Lemma Proto_roundtrip_of_undefined_field :
  MsgStoreCode.fromProto
    (MsgStoreCode.toProto Wire.StoreCode.binding
       (MsgStoreCode.new JUndefined JUndefined JUndefined JUndefined))
  = MsgStoreCode.new (JString "") (JString "") (JString "") (JString "").
Proof. reflexivity. Qed.



Lemma Any_wire_fromPartial : Any.fromPartial_copies Wire.AnyMsg.binding.
Proof. now intros a. Qed.




(** C3 (as amended). [unpackAny] never compares the envelope's [typeUrl]
    with the type URL of its own class: the outcome depends on the
    [value] bytes alone.  The bytes are always handed to the decoder;
    [unpackAny] throws exactly when the decoder throws, with the
    decoder's error, and otherwise returns the message built from what
    was decoded. *)
Theorem unpackAny_reads_value_only
    (sc : MsgStoreCode_pb.binding) (uc : MsgUpdateClient_pb.binding) :
  (forall url1 url2 value,
     MsgStoreCode.unpackAny sc (Any.mk url1 value)
     = MsgStoreCode.unpackAny sc (Any.mk url2 value))
  /\ (forall env e,
        MsgStoreCode.unpackAny sc env = Throw e
        <-> MsgStoreCode_pb.decode sc (Any.value env) = Throw e)
  /\ (forall env m,
        MsgStoreCode.unpackAny sc env = Return m
        <-> exists p, MsgStoreCode_pb.decode sc (Any.value env) = Return p
                      /\ m = MsgStoreCode.fromProto p)
  /\ (forall url1 url2 value,
        MsgUpdateClient.unpackAny uc (Any.mk url1 value)
        = MsgUpdateClient.unpackAny uc (Any.mk url2 value))
  /\ (forall env e,
        MsgUpdateClient.unpackAny uc env = Throw e
        <-> MsgUpdateClient_pb.decode uc (Any.value env) = Throw e)
  /\ (forall env m,
        MsgUpdateClient.unpackAny uc env = Return m
        <-> exists p, MsgUpdateClient_pb.decode uc (Any.value env) = Return p
                      /\ m = MsgUpdateClient.fromProto p).
Proof.
  split; [reflexivity|].
  split.
  { intros env e. unfold MsgStoreCode.unpackAny.
    destruct (MsgStoreCode_pb.decode sc (Any.value env)); cbn [bind];
      split; congruence. }
  split.
  { intros env m. unfold MsgStoreCode.unpackAny.
    destruct (MsgStoreCode_pb.decode sc (Any.value env)) as [p|e]; cbn [bind]; split.
    - intros E. exists p. split; congruence.
    - intros (p' & E & ->). congruence.
    - discriminate.
    - intros (p' & E & _). discriminate. }
  split; [reflexivity|].
  split.
  { intros env e. unfold MsgUpdateClient.unpackAny.
    destruct (MsgUpdateClient_pb.decode uc (Any.value env)); cbn [bind];
      split; congruence. }
  intros env m. unfold MsgUpdateClient.unpackAny.
  destruct (MsgUpdateClient_pb.decode uc (Any.value env)) as [p|e]; cbn [bind]; split.
  - intros E. exists p. split; congruence.
  - intros (p' & E & ->). congruence.
  - discriminate.
  - intros (p' & E & _). discriminate.
Qed.

(** C3, counterexample.  The envelope of a [MsgUpdateClient] declares
    [/ibc.core.client.v1.MsgUpdateClient]; [MsgStoreCode.unpackAny]
    decodes its bytes all the same and returns a [MsgStoreCode] whose
    fields are the client identifier, the bytes of the inner envelope
    and the signer.  Nothing is thrown. *)
Lemma unpackAny_mismatch_counterexample :
  exists env,
    MsgUpdateClient.packAny Wire.AnyMsg.binding Wire.UpdateClient.binding
      update_client_example = Return env
    /\ Any.typeUrl env = "/ibc.core.client.v1.MsgUpdateClient"
    /\ Any.typeUrl env <> "/jax.MsgStoreCode"
    /\ MsgStoreCode.unpackAny Wire.StoreCode.binding env
       = Return (MsgStoreCode.new
                   (JString "07-tendermint-0")
                   (JString (string_of_list_byte (Wire.AnyMsg.encode header_example)))
                   (JString "acc1...")
                   (JString "")).
Proof.
  eexists. split; [reflexivity|].
  split; [reflexivity|].
  split; [discriminate|].
  vm_compute. reflexivity.
Qed.

(** C5. The concrete scenario: the message with creator ["acc1..."],
    admin ["acc1..."], code ["contract-source"] and params ["{}"] comes
    back with the same four fields from [toProto] then [fromProto], also
    through the bytes of the wire format, and [toData] gives the object
    with ["@type"] ["/jax.MsgStoreCode"] followed by the four fields. *)
Theorem store_code_scenario (sc : MsgStoreCode_pb.binding) :
  MsgStoreCode_pb.fromPartial_copies sc ->
  MsgStoreCode_pb.decode_encode sc ->
  store_code_example
    = MsgStoreCode.new (JString "acc1...") (JString "acc1...")
        (JString "contract-source") (JString "{}")
  /\ MsgStoreCode.fromProto (MsgStoreCode.toProto sc store_code_example)
     = store_code_example
  /\ (exists b p,
        MsgStoreCode_pb.encode sc (MsgStoreCode.toProto sc store_code_example) = Return b
        /\ MsgStoreCode_pb.decode sc b = Return p
        /\ MsgStoreCode.fromProto p = store_code_example)
  /\ MsgStoreCode.toData store_code_example
     = JObject [("@type", JString "/jax.MsgStoreCode");
                ("creator", JString "acc1...");
                ("admin", JString "acc1...");
                ("code", JString "contract-source");
                ("params", JString "{}")].
Proof.
  intros Hsc Hsc'.
  assert (Hp : MsgStoreCode.toProto sc store_code_example
               = MsgStoreCode_pb.mk (JString "acc1...") (JString "acc1...")
                   (JString "contract-source") (JString "{}"))
    by (apply Hsc; reflexivity).
  split; [reflexivity|].
  split; [now rewrite Hp|].
  split; [|reflexivity].
  destruct (Hsc' (MsgStoreCode_pb.mk (JString "acc1...") (JString "acc1...")
                    (JString "contract-source") (JString "{}"))
              eq_refl eq_refl)
    as (b & Henc & Hdec).
  exists b, (MsgStoreCode_pb.mk (JString "acc1...") (JString "acc1...")
               (JString "contract-source") (JString "{}")).
  rewrite Hp. auto.
Qed.

(** The scenario with the bindings of the wire format. *)
Lemma store_code_scenario_witness :
  MsgStoreCode.fromProto (MsgStoreCode.toProto Wire.StoreCode.binding store_code_example)
  = store_code_example
  /\ MsgStoreCode.toData store_code_example
     = JObject [("@type", JString "/jax.MsgStoreCode");
                ("creator", JString "acc1...");
                ("admin", JString "acc1...");
                ("code", JString "contract-source");
                ("params", JString "{}")].
Proof.
  destruct (store_code_scenario Wire.StoreCode.binding
              StoreCode_wire_fromPartial StoreCode_wire_decode_encode)
    as (_ & P & _ & D).
  exact (conj P D).
Defined.

(** C7. [MsgUpdateClient] has no Amino shape: [fromAmino] and [toAmino]
    throw [Error('Amino not supported')] whatever they are given, and
    return nothing.  The Data and Proto conversions of the same class
    are supported: [toData] then [fromData] gives the message back and
    [fromData] reads any object; with the generated [fromPartial]
    copying a full object, [toProto] gives the Proto object of the
    three fields of a message of the declared types, [fromProto] of it
    is the message, and [toProto] of [fromProto] of a Proto object of
    the declared types is the object. *)
Theorem UpdateClient_amino_unsupported :
  (forall data isClassic,
     MsgUpdateClient.fromAmino data isClassic = Throw (Error "Amino not supported"))
  /\ (forall m, MsgUpdateClient.toAmino m = Throw (Error "Amino not supported"))
  /\ (forall m, MsgUpdateClient.fromData (MsgUpdateClient.toData m) = Return m)
  /\ (forall props, exists m, MsgUpdateClient.fromData (JObject props) = Return m)
  /\ (forall uc, MsgUpdateClient_pb.fromPartial_copies uc ->
        (forall m, MsgUpdateClient.wt m = true ->
           MsgUpdateClient.toProto uc m
           = MsgUpdateClient_pb.mk (MsgUpdateClient.client_id m)
               (MsgUpdateClient.clientMessage m) (MsgUpdateClient.signer m)
           /\ MsgUpdateClient.fromProto (MsgUpdateClient.toProto uc m) = m)
        /\ (forall p, MsgUpdateClient_pb.wt p = true ->
              MsgUpdateClient.toProto uc (MsgUpdateClient.fromProto p) = p)).
Proof.
  split; [reflexivity|].
  split; [reflexivity|].
  split; [now intros [c cm s]|].
  split; [intros props; eexists; reflexivity|].
  intros uc Huc. split.
  - intros [c cm s] Hwt. unfold MsgUpdateClient.toProto.
    cbn [MsgUpdateClient.client_id MsgUpdateClient.clientMessage MsgUpdateClient.signer].
    rewrite Huc by exact Hwt. split; reflexivity.
  - intros [c cm s] Hwt. unfold MsgUpdateClient.toProto, MsgUpdateClient.fromProto.
    cbn [MsgUpdateClient.client_id MsgUpdateClient.clientMessage MsgUpdateClient.signer
         MsgUpdateClient_pb.clientId MsgUpdateClient_pb.clientMessage
         MsgUpdateClient_pb.signer].
    now apply Huc.
Qed.

(** The example message, which carries a packed payload, through the
    Data shape and through the Proto object of the bindings under
    Node.js. *)
Lemma UpdateClient_amino_unsupported_witness :
  MsgUpdateClient.fromAmino (MsgUpdateClient.toData update_client_example) JUndefined
    = Throw (Error "Amino not supported")
  /\ MsgUpdateClient.fromData (MsgUpdateClient.toData update_client_example)
     = Return update_client_example
  /\ MsgUpdateClient.toProto Node.UpdateClient.binding update_client_example
     = MsgUpdateClient_pb.mk (JString "07-tendermint-0") (Any.to_js header_example)
         (JString "acc1...")
  /\ MsgUpdateClient.fromProto
       (MsgUpdateClient.toProto Node.UpdateClient.binding update_client_example)
     = update_client_example.
Proof.
  destruct UpdateClient_amino_unsupported as (Hfrom & _ & Hdata & _ & Hproto).
  destruct (Hproto Node.UpdateClient.binding Node_UpdateClient_fromPartial)
    as [Hto _].
  destruct (Hto update_client_example eq_refl) as [Hp Hback].
  exact (conj (Hfrom _ _) (conj (Hdata _) (conj Hp Hback))).
Defined.

(** C8 (as amended).  [fromData] and [fromAmino] do not inspect the
    payload: they read the properties [creator], [admin], [code] and
    [params] (of the payload for Data, of its [value] for Amino) and
    build the message from whatever they find, a missing property being
    [undefined].  The only failure is the [TypeError] of reading a
    property of [undefined] or [null].  The two generations of each
    shape are declared alike, and a payload of either one gives the
    well-typed message of its four fields. *)
Theorem from_json_without_inspection :
  (forall data,
     MsgStoreCode.fromData data
     = match data with
       | JUndefined | JNull => Throw TypeError
       | _ => Return (MsgStoreCode.new (property data "creator") (property data "admin")
                        (property data "code") (property data "params"))
       end)
  /\ (forall data,
        MsgStoreCode.fromAmino data
        = match data with
          | JUndefined | JNull => Throw TypeError
          | _ =>
              match property data "value" with
              | JUndefined | JNull => Throw TypeError
              | v => Return (MsgStoreCode.new (property v "creator") (property v "admin")
                               (property v "code") (property v "params"))
              end
          end)
  /\ (forall data,
        MsgStoreCode.is_DataV1 data = true \/ MsgStoreCode.is_DataV2 data = true ->
        exists m, MsgStoreCode.fromData data = Return m
                  /\ MsgStoreCode.wt m = true
                  /\ MsgStoreCode.creator m = property data "creator"
                  /\ MsgStoreCode.admin m = property data "admin"
                  /\ MsgStoreCode.code m = property data "code"
                  /\ MsgStoreCode.params m = property data "params")
  /\ (forall data,
        MsgStoreCode.is_AminoV1 data = true \/ MsgStoreCode.is_AminoV2 data = true ->
        exists m, MsgStoreCode.fromAmino data = Return m
                  /\ MsgStoreCode.wt m = true
                  /\ MsgStoreCode.creator m = property (property data "value") "creator"
                  /\ MsgStoreCode.admin m = property (property data "value") "admin"
                  /\ MsgStoreCode.code m = property (property data "value") "code"
                  /\ MsgStoreCode.params m = property (property data "value") "params").
Proof.
  assert (HD : forall data,
     MsgStoreCode.fromData data
     = match data with
       | JUndefined | JNull => Throw TypeError
       | _ => Return (MsgStoreCode.new (property data "creator") (property data "admin")
                        (property data "code") (property data "params"))
       end) by now intros [].
  assert (HA : forall data,
        MsgStoreCode.fromAmino data
        = match data with
          | JUndefined | JNull => Throw TypeError
          | _ =>
              match property data "value" with
              | JUndefined | JNull => Throw TypeError
              | v => Return (MsgStoreCode.new (property v "creator") (property v "admin")
                               (property v "code") (property v "params"))
              end
          end).
  { intros data. unfold MsgStoreCode.fromAmino.
    destruct data; try reflexivity;
      cbn [GetV bind]; destruct (property _ "value"); reflexivity. }
  split; [exact HD|]. split; [exact HA|]. split.
  - intros data H.
    assert (H' : MsgStoreCode.is_DataV2 data = true) by (destruct H; assumption).
    clear H. unfold MsgStoreCode.is_DataV2 in H'.
    repeat (apply andb_prop in H' as [H' ?]).
    rewrite HD. destruct data; try discriminate H'.
    eexists. split; [reflexivity|].
    unfold MsgStoreCode.wt.
    cbn [MsgStoreCode.creator MsgStoreCode.admin MsgStoreCode.code MsgStoreCode.params].
    repeat split; auto using andb_true_intro.
    repeat (apply andb_true_intro; split); assumption.
  - intros data H.
    assert (H' : MsgStoreCode.is_AminoV2 data = true) by (destruct H; assumption).
    clear H. unfold MsgStoreCode.is_AminoV2 in H'.
    repeat (apply andb_prop in H' as [H' ?]).
    rewrite HA. destruct data; try discriminate H'.
    destruct (property (JObject props) "value") eqn:Hv;
      match goal with
      | E : is_object _ = true |- _ => try discriminate E
      end.
    eexists. split; [reflexivity|].
    unfold MsgStoreCode.wt.
    cbn [MsgStoreCode.creator MsgStoreCode.admin MsgStoreCode.code MsgStoreCode.params].
    repeat split; auto.
    repeat (apply andb_true_intro; split); assumption.
Qed.

(** The current Data and Amino payloads of the example message are of
    either generation. *)
Lemma from_json_without_inspection_witness :
  (exists m, MsgStoreCode.fromData (MsgStoreCode.toData store_code_example) = Return m
             /\ MsgStoreCode.wt m = true)
  /\ (exists m, MsgStoreCode.fromAmino (MsgStoreCode.toAmino store_code_example) = Return m
              /\ MsgStoreCode.wt m = true).
Proof.
  destruct from_json_without_inspection as (_ & _ & D & A).
  destruct (D (MsgStoreCode.toData store_code_example) (or_intror eq_refl))
    as (m & Hm & Hwt & _).
  destruct (A (MsgStoreCode.toAmino store_code_example) (or_intror eq_refl))
    as (m' & Hm' & Hwt' & _).
  exact (conj (ex_intro _ m (conj Hm Hwt)) (ex_intro _ m' (conj Hm' Hwt'))).
Defined.

(** C8, counterexample.  The empty object matches neither generation of
    the Data shape, and [fromData] builds a message of four [undefined]
    fields from it; so it does from the Data payload of a
    [MsgUpdateClient], and so does [fromAmino] from an Amino payload
    whose [value] is the empty object. *)
Lemma from_json_unknown_shape_counterexample :
  MsgStoreCode.is_DataV1 (JObject []) = false
  /\ MsgStoreCode.is_DataV2 (JObject []) = false
  /\ MsgStoreCode.fromData (JObject [])
     = Return (MsgStoreCode.new JUndefined JUndefined JUndefined JUndefined)
  /\ MsgStoreCode.is_DataV1 (MsgUpdateClient.toData update_client_example) = false
  /\ MsgStoreCode.is_DataV2 (MsgUpdateClient.toData update_client_example) = false
  /\ MsgStoreCode.fromData (MsgUpdateClient.toData update_client_example)
     = Return (MsgStoreCode.new JUndefined JUndefined JUndefined JUndefined)
  /\ MsgStoreCode.is_AminoV1 (JObject [("value", JObject [])]) = false
  /\ MsgStoreCode.is_AminoV2 (JObject [("value", JObject [])]) = false
  /\ MsgStoreCode.fromAmino (JObject [("value", JObject [])])
     = Return (MsgStoreCode.new JUndefined JUndefined JUndefined JUndefined).
Proof. repeat split. Qed.

(** * The key *)

(** The constructor stores the flag and the secret it was given. *)
Lemma RawKey_new_fields (Entropy : Type) (L : secp256k1.lib Entropy)
    (secret : bytes) (flag : option bool) (k : RawKey.t) :
  RawKey.new L secret flag = Return k ->
  RawKey.isInjective k = flag /\ RawKey.privateKey k = secret
  /\ exists pub, secp256k1.publicKeyCreate L secret true = Return pub.
Proof.
  unfold RawKey.new.
  destruct (secp256k1.publicKeyCreate L secret true) as [pub|e]; cbn [bind];
    [|discriminate].
  intros E. injection E as <-. cbn. eauto.
Qed.

(** The digest [ecdsaSign] hands to the library is the SHA-256 digest
    itself: writing it in hexadecimal and reading it back changes
    nothing. *)
Lemma RawKey_ecdsaSign_digest (Entropy : Type) (L : secp256k1.lib Entropy)
    (H : hashes) (e : Entropy) (k : RawKey.t) (payload : bytes) :
  RawKey.ecdsaSign L H e k payload
  = secp256k1.ecdsaSign L e (SHA256_hash H payload) (RawKey.privateKey k).
Proof.
  unfold RawKey.ecdsaSign. now rewrite Buffer_from_hex_stringify.
Qed.

(** C2. A key built for the standard family (flag absent or false)
    signs the SHA-256 digest of the payload, a key built with the flag
    set signs its Keccak-256 digest, both with the library's ECDSA over
    secp256k1 and the secret given to the constructor; the flag given to
    the constructor alone picks the digest. *)
Theorem sign_digest_by_family (Entropy : Type) (L : secp256k1.lib Entropy)
    (H : hashes) (secret : bytes) (flag : option bool) (k : RawKey.t) :
  RawKey.new L secret flag = Return k ->
  (truthy flag = false ->
     forall e payload,
       RawKey.sign L H e k payload
       = async (r <- secp256k1.ecdsaSign L e (SHA256_hash H payload) secret ;;
                Return (secp256k1.signature r)))
  /\ (truthy flag = true ->
     forall e payload,
       RawKey.sign L H e k payload
       = async (r <- secp256k1.ecdsaSign L e (keccak256 H payload) secret ;;
                Return (secp256k1.signature r))).
Proof.
  intros Hk. apply RawKey_new_fields in Hk as (Hflag & Hsecret & _).
  split; intros Ht e payload; unfold RawKey.sign; rewrite Hflag, Ht.
  - now rewrite RawKey_ecdsaSign_digest, Hsecret.
  - unfold RawKey.etherSign. now rewrite Hsecret.
Qed.

(** C6. Signing with a standard-family key is deterministic: the
    signature depends on the payload and the secret only.  Two calls on
    the same payload, whenever they are made and whatever else the two
    keys hold, resolve to the same bytes, the library deriving its nonce
    as RFC 6979 prescribes. *)
Theorem sign_deterministic (Entropy : Type) (L : secp256k1.lib Entropy)
    (H : hashes) (e1 e2 : Entropy) (k1 k2 : RawKey.t) (payload : bytes) :
  secp256k1.rfc6979 L ->
  truthy (RawKey.isInjective k1) = false ->
  truthy (RawKey.isInjective k2) = false ->
  RawKey.privateKey k1 = RawKey.privateKey k2 ->
  RawKey.sign L H e1 k1 payload = RawKey.sign L H e2 k2 payload.
Proof.
  intros Hdet H1 H2 Hsecret. unfold RawKey.sign. rewrite H1, H2.
  rewrite !RawKey_ecdsaSign_digest, Hsecret.
  now rewrite (Hdet e1 e2).
Qed.

(** C10. Whatever the family, [sign] resolves to the 64 bytes of the
    compact signature the library returned for the digest and the
    secret; the recovery id the library returns beside it has no way
    into the result, which stays the same when the library reports
    another one. *)
Theorem sign_returns_compact_signature (Entropy : Type) (L : secp256k1.lib Entropy)
    (H : hashes) (secret : bytes) (flag : option bool) (k : RawKey.t) :
  secp256k1.signs_with_valid_secret L ->
  digests_32 H ->
  RawKey.new L secret flag = Return k ->
  forall e payload,
    exists r,
      secp256k1.ecdsaSign L e
        (if truthy flag then keccak256 H payload else SHA256_hash H payload) secret
      = Return r
      /\ RawKey.sign L H e k payload = Resolved (secp256k1.signature r)
      /\ List.length (secp256k1.signature r) = 64%nat
      /\ forall f, RawKey.sign (secp256k1.map_recid f L) H e k payload
                   = Resolved (secp256k1.signature r).
Proof.
  intros Hsigns Hlen Hk e payload.
  apply RawKey_new_fields in Hk as (Hflag & Hsecret & pub & Hpub).
  destruct (Hlen payload) as [Hsha Hkec].
  set (digest := if truthy flag then keccak256 H payload else SHA256_hash H payload).
  assert (Hd : List.length digest = 32%nat) by (unfold digest; now destruct (truthy flag)).
  destruct (Hsigns e secret pub digest Hpub Hd) as (r & Hr & H64).
  exists r. split; [assumption|].
  assert (Hcall : forall L',
            (if truthy (RawKey.isInjective k)
             then RawKey.etherSign L' H e k payload
             else RawKey.ecdsaSign L' H e k payload)
            = secp256k1.ecdsaSign L' e digest secret).
  { intros L'. rewrite Hflag. unfold digest.
    destruct (truthy flag).
    - unfold RawKey.etherSign. now rewrite Hsecret.
    - now rewrite RawKey_ecdsaSign_digest, Hsecret. }
  split; [|split; [assumption|]].
  - unfold RawKey.sign. now rewrite Hcall, Hr.
  - intros f. unfold RawKey.sign. rewrite Hcall.
    cbn [secp256k1.map_recid secp256k1.ecdsaSign]. now rewrite Hr.
Qed.

(** The stand-in libraries obey the contracts. *)
Lemma Toy_valid_secret_length (secret : bytes) :
  Toy.valid_secret secret = true -> List.length secret = 32%nat.
Proof.
  unfold Toy.valid_secret. intros Hv. apply andb_prop in Hv as [Hv _].
  now apply Nat.eqb_eq.
Qed.

Lemma Toy_signs_with_valid_secret : secp256k1.signs_with_valid_secret Toy.lib.
Proof.
  intros e secret pub digest Hpub Hd. cbn in Hpub |- *.
  destruct (Toy.valid_secret secret) eqn:Hv; [|discriminate].
  rewrite Hd. cbn [Nat.eqb andb]. eexists. split; [reflexivity|].
  cbn [secp256k1.signature]. rewrite length_app, Hd.
  now rewrite (Toy_valid_secret_length _ Hv).
Qed.

Lemma Toy_rfc6979 : secp256k1.rfc6979 Toy.lib.
Proof. now intros e1 e2 digest secret. Qed.

Lemma Toy_digests_32 : digests_32 Toy.hash.
Proof.
  intros payload. cbn [Toy.hash SHA256_hash keccak256]. unfold Toy.pad32.
  rewrite !length_firstn, !length_app, !repeat_length. lia.
Qed.

(** The theorems on the key, at the keys of the stand-in libraries. *)

(** With the stand-in libraries the two families sign different
    digests of the same payload. *)
Lemma sign_digest_by_family_witness :
  (forall e, RawKey.sign Toy.lib Toy.hash e Toy.standard_key Toy.payload
             = Resolved (Toy.pad32 x00 Toy.payload ++ Toy.secret))
  /\ (forall e, RawKey.sign Toy.lib Toy.hash e Toy.injective_key Toy.payload
                = Resolved (Toy.pad32 xff (rev Toy.payload) ++ Toy.secret)).
Proof.
  destruct (sign_digest_by_family nat Toy.lib Toy.hash Toy.secret None
              Toy.standard_key eq_refl) as [Hsha _].
  destruct (sign_digest_by_family nat Toy.lib Toy.hash Toy.secret (Some true)
              Toy.injective_key eq_refl) as [_ Hkeccak].
  split; intros e.
  - rewrite (Hsha eq_refl e Toy.payload). reflexivity.
  - rewrite (Hkeccak eq_refl e Toy.payload). reflexivity.
Defined.

(** Two keys of the standard family with the same secret, one built
    without the flag and one with [false], at two different times. *)
Lemma sign_deterministic_witness :
  RawKey.sign Toy.lib Toy.hash 0%nat Toy.standard_key Toy.payload
  = RawKey.sign Toy.lib Toy.hash 5%nat Toy.standard_key_false Toy.payload.
Proof.
  exact (sign_deterministic nat Toy.lib Toy.hash 0%nat 5%nat
           Toy.standard_key Toy.standard_key_false Toy.payload
           Toy_rfc6979 eq_refl eq_refl eq_refl).
Defined.

(** The key built with the flag set resolves to 64 bytes. *)
Lemma sign_returns_compact_signature_witness :
  exists sig,
    RawKey.sign Toy.lib Toy.hash 0%nat Toy.injective_key Toy.payload = Resolved sig
    /\ List.length sig = 64%nat.
Proof.
  destruct (sign_returns_compact_signature nat Toy.lib Toy.hash Toy.secret (Some true)
              Toy.injective_key Toy_signs_with_valid_secret Toy_digests_32 eq_refl
              0%nat Toy.payload) as (r & _ & Hsign & Hlen & _).
  exact (ex_intro _ (secp256k1.signature r) (conj Hsign Hlen)).
Defined.

(** * Further properties of the key *)

(** X1. The two signing methods return what the library returned,
    recovery id included: [ecdsaSign] for the SHA-256 digest of the
    payload, which its detour through hexadecimal text leaves as it is
    whatever its length, and [etherSign] for the Keccak-256 digest; an
    exception of the library is the exception of the method. *)
Theorem signing_methods_return_library_result (Entropy : Type)
    (L : secp256k1.lib Entropy) (H : hashes) (e : Entropy) (k : RawKey.t)
    (payload : bytes) :
  RawKey.ecdsaSign L H e k payload
  = secp256k1.ecdsaSign L e (SHA256_hash H payload) (RawKey.privateKey k)
  /\ RawKey.etherSign L H e k payload
     = secp256k1.ecdsaSign L e (keccak256 H payload) (RawKey.privateKey k).
Proof.
  split; [|reflexivity].
  unfold RawKey.ecdsaSign. now rewrite Buffer_from_hex_stringify.
Qed.


(** X3. Passing [false] for the flag is the same as leaving it out: the
    two keys hold the same public key, in the same class, and the same
    secret, and they sign every payload alike. *)
Theorem isInjective_false_is_absent (Entropy : Type) (L : secp256k1.lib Entropy)
    (H : hashes) (secret : bytes) (k1 k2 : RawKey.t) :
  RawKey.new L secret None = Return k1 ->
  RawKey.new L secret (Some false) = Return k2 ->
  RawKey.publicKey k1 = RawKey.publicKey k2
  /\ RawKey.privateKey k1 = RawKey.privateKey k2
  /\ forall e payload,
       RawKey.sign L H e k1 payload = RawKey.sign L H e k2 payload.
Proof.
  unfold RawKey.new.
  destruct (secp256k1.publicKeyCreate L secret true) as [pub|err]; cbn [bind];
    [|discriminate].
  intros E1 E2. injection E1 as <-. injection E2 as <-.
  repeat split.
Qed.

Lemma isInjective_false_is_absent_witness :
  RawKey.publicKey Toy.standard_key = RawKey.publicKey Toy.standard_key_false
  /\ forall e,
       RawKey.sign Toy.lib Toy.hash e Toy.standard_key Toy.payload
       = RawKey.sign Toy.lib Toy.hash e Toy.standard_key_false Toy.payload.
Proof.
  destruct (isInjective_false_is_absent nat Toy.lib Toy.hash Toy.secret
              Toy.standard_key Toy.standard_key_false eq_refl eq_refl)
    as (Hpub & _ & Hsign).
  exact (conj Hpub (fun e => Hsign e Toy.payload)).
Defined.

(** * Further properties of the message codec *)

(** What the decoders of the JSON shapes do with a payload that is
    neither [undefined] nor [null]. *)
Lemma StoreCode_fromData_reads (data : JsValue) :
  is_nullish data = false ->
  MsgStoreCode.fromData data
  = Return (MsgStoreCode.new (property data "creator") (property data "admin")
              (property data "code") (property data "params")).
Proof. destruct data; (discriminate || reflexivity). Qed.

Lemma StoreCode_fromAmino_reads (data : JsValue) :
  is_nullish data = false ->
  MsgStoreCode.fromAmino data = MsgStoreCode.fromData (property data "value").
Proof. destruct data; (discriminate || reflexivity). Qed.

Lemma UpdateClient_fromData_reads (data : JsValue) :
  is_nullish data = false ->
  MsgUpdateClient.fromData data
  = Return (MsgUpdateClient.new (property data "client_id")
              (property data "clientMessage") (property data "signer")).
Proof. destruct data; (discriminate || reflexivity). Qed.

Lemma is_object_not_nullish (v : JsValue) : is_object v = true -> is_nullish v = false.
Proof. destruct v; (discriminate || reflexivity). Qed.

(** X4. [MsgStoreCode.fromData] and [MsgStoreCode.fromAmino] read four
    members and nothing else: two payloads that agree on [creator],
    [admin], [code] and [params] (of the payload for Data, of its
    [value] for Amino) decode to the same message, whatever their tags
    ([@type], [type]), their other members and the order of their
    members. *)
Theorem StoreCode_decoders_read_four_members (d1 d2 : JsValue) :
  is_nullish d1 = false ->
  is_nullish d2 = false ->
  property d1 "creator" = property d2 "creator" ->
  property d1 "admin" = property d2 "admin" ->
  property d1 "code" = property d2 "code" ->
  property d1 "params" = property d2 "params" ->
  MsgStoreCode.fromData d1 = MsgStoreCode.fromData d2
  /\ (forall a1 a2,
        is_nullish a1 = false -> is_nullish a2 = false ->
        property a1 "value" = d1 -> property a2 "value" = d2 ->
        MsgStoreCode.fromAmino a1 = MsgStoreCode.fromAmino a2).
Proof.
  intros N1 N2 Hc Ha Hco Hp.
  assert (HD : MsgStoreCode.fromData d1 = MsgStoreCode.fromData d2).
  { rewrite !StoreCode_fromData_reads by assumption. now rewrite Hc, Ha, Hco, Hp. }
  split; [exact HD|].
  intros a1 a2 M1 M2 V1 V2.
  rewrite !StoreCode_fromAmino_reads by assumption. now rewrite V1, V2.
Qed.

(** The payload [toData] writes, the same fields under the tag of
    another message, and the payload another producer wrote all decode
    to the example message; so do the Amino payloads. *)
Lemma StoreCode_decoders_read_four_members_witness :
  MsgStoreCode.fromData mistagged_data_example = Return store_code_example
  /\ MsgStoreCode.fromData reordered_data_example = Return store_code_example
  /\ MsgStoreCode.fromAmino mistagged_amino_example = Return store_code_example
  /\ MsgStoreCode.fromAmino reordered_amino_example = Return store_code_example.
Proof.
  destruct (StoreCode_decoders_read_four_members
              mistagged_data_example (MsgStoreCode.toData store_code_example)
              eq_refl eq_refl eq_refl eq_refl eq_refl eq_refl) as [D1 _].
  destruct (StoreCode_decoders_read_four_members
              reordered_data_example (MsgStoreCode.toData store_code_example)
              eq_refl eq_refl eq_refl eq_refl eq_refl eq_refl) as [D2 _].
  destruct (StoreCode_decoders_read_four_members
              (property mistagged_amino_example "value")
              (property (MsgStoreCode.toAmino store_code_example) "value")
              eq_refl eq_refl eq_refl eq_refl eq_refl eq_refl) as [_ A1].
  destruct (StoreCode_decoders_read_four_members
              (property reordered_amino_example "value")
              (property (MsgStoreCode.toAmino store_code_example) "value")
              eq_refl eq_refl eq_refl eq_refl eq_refl eq_refl) as [_ A2].
  split; [rewrite D1; reflexivity|].
  split; [rewrite D2; reflexivity|].
  split.
  - rewrite (A1 mistagged_amino_example (MsgStoreCode.toAmino store_code_example)
               eq_refl eq_refl eq_refl eq_refl).
    reflexivity.
  - rewrite (A2 reordered_amino_example (MsgStoreCode.toAmino store_code_example)
               eq_refl eq_refl eq_refl eq_refl).
    reflexivity.
Defined.

(** X5. [MsgUpdateClient.fromData] throws a [TypeError] on [undefined]
    and on [null], and on nothing else; any other payload gives a
    message, made of the members [client_id], [clientMessage] and
    [signer] alone: two payloads that agree on the three decode alike,
    and a payload that lacks them gives a message of [undefined]
    fields. *)
Theorem UpdateClient_fromData_outcome :
  (forall data,
     is_nullish data = true <-> MsgUpdateClient.fromData data = Throw TypeError)
  /\ (forall data err, MsgUpdateClient.fromData data = Throw err -> err = TypeError)
  /\ (forall d1 d2,
        is_nullish d1 = false -> is_nullish d2 = false ->
        property d1 "client_id" = property d2 "client_id" ->
        property d1 "clientMessage" = property d2 "clientMessage" ->
        property d1 "signer" = property d2 "signer" ->
        exists m, MsgUpdateClient.fromData d1 = Return m
                  /\ MsgUpdateClient.fromData d2 = Return m)
  /\ (forall data,
        is_nullish data = false ->
        property data "client_id" = JUndefined ->
        property data "clientMessage" = JUndefined ->
        property data "signer" = JUndefined ->
        MsgUpdateClient.fromData data
        = Return (MsgUpdateClient.new JUndefined JUndefined JUndefined)).
Proof.
  split; [|split; [|split]].
  - intros data. destruct (is_nullish data) eqn:N.
    + split; [|reflexivity]. intros _. destruct data; (discriminate || reflexivity).
    + rewrite UpdateClient_fromData_reads by assumption. split; discriminate.
  - intros data err. destruct (is_nullish data) eqn:N.
    + destruct data; try discriminate N; cbn; congruence.
    + rewrite UpdateClient_fromData_reads by assumption. discriminate.
  - intros d1 d2 N1 N2 Hc Hm Hs. eexists.
    rewrite !UpdateClient_fromData_reads by assumption.
    rewrite Hc, Hm, Hs. split; reflexivity.
  - intros data N Hc Hm Hs.
    rewrite UpdateClient_fromData_reads by assumption. now rewrite Hc, Hm, Hs.
Qed.

Lemma UpdateClient_fromData_outcome_witness :
  MsgUpdateClient.fromData JNull = Throw TypeError
  /\ MsgUpdateClient.fromData (JObject [])
     = Return (MsgUpdateClient.new JUndefined JUndefined JUndefined)
  /\ exists m,
       MsgUpdateClient.fromData
         (JObject [("signer", JString "acc1...");
                   ("clientMessage", Any.to_js header_example);
                   ("client_id", JString "07-tendermint-0")]) = Return m
       /\ MsgUpdateClient.fromData (MsgUpdateClient.toData update_client_example)
          = Return m.
Proof.
  destruct UpdateClient_fromData_outcome as (Hnull & _ & Hagree & Hempty).
  split; [apply Hnull; reflexivity|].
  split; [apply Hempty; reflexivity|].
  apply Hagree; reflexivity.
Defined.

(** X6. Handing a decoder the payload of another shape or of another
    class.  [MsgStoreCode.fromAmino] throws a [TypeError] on every Data
    payload that [toData] writes, since it has no [value]; every other
    mix-up goes unnoticed and gives a message whose fields are all
    [undefined]: [fromData] on an Amino payload, and either class's
    [fromData] on the other class's Data payload. *)
Theorem decoders_on_foreign_payloads :
  (forall m, MsgStoreCode.fromAmino (MsgStoreCode.toData m) = Throw TypeError)
  /\ (forall u, MsgStoreCode.fromAmino (MsgUpdateClient.toData u) = Throw TypeError)
  /\ (forall m,
        MsgStoreCode.fromData (MsgStoreCode.toAmino m)
        = Return (MsgStoreCode.new JUndefined JUndefined JUndefined JUndefined))
  /\ (forall u,
        MsgStoreCode.fromData (MsgUpdateClient.toData u)
        = Return (MsgStoreCode.new JUndefined JUndefined JUndefined JUndefined))
  /\ (forall m,
        MsgUpdateClient.fromData (MsgStoreCode.toData m)
        = Return (MsgUpdateClient.new JUndefined JUndefined JUndefined))
  /\ (forall m,
        MsgUpdateClient.fromData (MsgStoreCode.toAmino m)
        = Return (MsgUpdateClient.new JUndefined JUndefined JUndefined)).
Proof.
  repeat split; intros []; reflexivity.
Qed.

(** X7. What the encoders write has the shape of the declared interface
    exactly when the fields of the message have their declared types:
    [toData] and [toAmino] of [MsgStoreCode] against [DataV2] and
    [AminoV2] (and so the older generation, declared alike), [toData]
    of [MsgUpdateClient] against [MsgUpdateClient.Data]. *)
Theorem encoders_write_declared_shape :
  (forall m, MsgStoreCode.is_DataV2 (MsgStoreCode.toData m) = MsgStoreCode.wt m)
  /\ (forall m, MsgStoreCode.is_DataV1 (MsgStoreCode.toData m) = MsgStoreCode.wt m)
  /\ (forall m, MsgStoreCode.is_AminoV2 (MsgStoreCode.toAmino m) = MsgStoreCode.wt m)
  /\ (forall m, MsgStoreCode.is_AminoV1 (MsgStoreCode.toAmino m) = MsgStoreCode.wt m)
  /\ (forall u, MsgUpdateClient_is_Data (MsgUpdateClient.toData u) = MsgUpdateClient.wt u).
Proof.
  repeat split; intros []; reflexivity.
Qed.

(** X8. Decoding a payload of either generation and encoding the
    message again gives the current shape: every payload that has the
    members of [DataV1] or [DataV2], in any order and among any others,
    decodes to a message with the declared field types, whose Data
    payload is the tag followed by the four fields of the payload read,
    whose Data and Amino payloads have the shape of the current
    generation, and which both payloads decode back to; likewise from a
    payload of [AminoV1] or [AminoV2]. *)
Theorem either_generation_is_normalized :
  (forall data,
     MsgStoreCode.is_DataV1 data = true \/ MsgStoreCode.is_DataV2 data = true ->
     exists m,
       MsgStoreCode.fromData data = Return m
       /\ MsgStoreCode.toData m
          = JObject [("@type", JString "/jax.MsgStoreCode");
                     ("creator", property data "creator");
                     ("admin", property data "admin");
                     ("code", property data "code");
                     ("params", property data "params")]
       /\ MsgStoreCode.is_DataV2 (MsgStoreCode.toData m) = true
       /\ MsgStoreCode.is_AminoV2 (MsgStoreCode.toAmino m) = true
       /\ MsgStoreCode.fromData (MsgStoreCode.toData m) = Return m
       /\ MsgStoreCode.fromAmino (MsgStoreCode.toAmino m) = Return m)
  /\ (forall data,
        MsgStoreCode.is_AminoV1 data = true \/ MsgStoreCode.is_AminoV2 data = true ->
        exists m,
          MsgStoreCode.fromAmino data = Return m
          /\ MsgStoreCode.toAmino m
             = JObject [("type", JString "jax/MsgStoreCode");
                        ("value", JObject [
                           ("creator", property (property data "value") "creator");
                           ("admin", property (property data "value") "admin");
                           ("code", property (property data "value") "code");
                           ("params", property (property data "value") "params")])]
          /\ MsgStoreCode.is_AminoV2 (MsgStoreCode.toAmino m) = true
          /\ MsgStoreCode.is_DataV2 (MsgStoreCode.toData m) = true
          /\ MsgStoreCode.fromAmino (MsgStoreCode.toAmino m) = Return m
          /\ MsgStoreCode.fromData (MsgStoreCode.toData m) = Return m).
Proof.
  assert (Hshape : forall c a co pa,
            is_string c = true -> is_string a = true ->
            is_string co = true -> is_string pa = true ->
            MsgStoreCode.is_DataV2 (MsgStoreCode.toData (MsgStoreCode.new c a co pa)) = true
            /\ MsgStoreCode.is_AminoV2 (MsgStoreCode.toAmino (MsgStoreCode.new c a co pa))
               = true).
  { intros c a co pa Hc Ha Hco Hpa.
    unfold MsgStoreCode.is_DataV2, MsgStoreCode.is_AminoV2.
    cbn. rewrite Hc, Ha, Hco, Hpa. split; reflexivity. }
  split.
  - intros data H.
    assert (H' : MsgStoreCode.is_DataV2 data = true) by (destruct H; assumption).
    clear H. unfold MsgStoreCode.is_DataV2 in H'.
    repeat (apply andb_prop in H' as [H' ?]).
    exists (MsgStoreCode.new (property data "creator") (property data "admin")
              (property data "code") (property data "params")).
    split; [apply StoreCode_fromData_reads, is_object_not_nullish, H'|].
    split; [reflexivity|].
    split; [now apply Hshape|]. split; [now apply Hshape|].
    split; reflexivity.
  - intros data H.
    assert (H' : MsgStoreCode.is_AminoV2 data = true) by (destruct H; assumption).
    clear H. unfold MsgStoreCode.is_AminoV2 in H'.
    repeat (apply andb_prop in H' as [H' ?]).
    exists (MsgStoreCode.new (property (property data "value") "creator")
              (property (property data "value") "admin")
              (property (property data "value") "code")
              (property (property data "value") "params")).
    split.
    { rewrite StoreCode_fromAmino_reads by now apply is_object_not_nullish.
      now apply StoreCode_fromData_reads, is_object_not_nullish. }
    split; [reflexivity|].
    split; [now apply Hshape|]. split; [now apply Hshape|].
    split; reflexivity.
Qed.

(** The payloads another producer wrote give the example message, and
    the payloads [toData] and [toAmino] write for it. *)
Lemma either_generation_is_normalized_witness :
  (exists m,
     MsgStoreCode.fromData reordered_data_example = Return m
     /\ MsgStoreCode.toData m = MsgStoreCode.toData store_code_example)
  /\ (exists m,
        MsgStoreCode.fromAmino reordered_amino_example = Return m
        /\ MsgStoreCode.toAmino m = MsgStoreCode.toAmino store_code_example).
Proof.
  destruct either_generation_is_normalized as [D A].
  destruct (D reordered_data_example (or_introl eq_refl)) as (m & Hm & Hd & _).
  destruct (A reordered_amino_example (or_introl eq_refl)) as (m' & Hm' & Ha & _).
  exact (conj (ex_intro _ m (conj Hm Hd)) (ex_intro _ m' (conj Hm' Ha))).
Defined.

(** X9. No two messages share a JSON payload: [toData] and [toAmino] of
    [MsgStoreCode] and [toData] of [MsgUpdateClient] are injective, and
    no Data payload of one class is a Data payload of the other. *)
Theorem json_encoders_are_injective :
  (forall m1 m2, MsgStoreCode.toData m1 = MsgStoreCode.toData m2 -> m1 = m2)
  /\ (forall m1 m2, MsgStoreCode.toAmino m1 = MsgStoreCode.toAmino m2 -> m1 = m2)
  /\ (forall u1 u2, MsgUpdateClient.toData u1 = MsgUpdateClient.toData u2 -> u1 = u2)
  /\ (forall m u, MsgStoreCode.toData m <> MsgUpdateClient.toData u).
Proof.
  repeat split.
  - intros [c a co pa] [c' a' co' pa'] E. injection E as <- <- <- <-. reflexivity.
  - intros [c a co pa] [c' a' co' pa'] E. injection E as <- <- <- <-. reflexivity.
  - intros [c cm s] [c' cm' s'] E. injection E as <- <- <-. reflexivity.
  - intros m u E. discriminate E.
Qed.

Lemma json_encoders_are_injective_witness :
  MsgStoreCode.toData store_code_example <> MsgStoreCode.toData store_code_other_example
  /\ MsgStoreCode.toAmino store_code_example
     <> MsgStoreCode.toAmino store_code_other_example.
Proof.
  destruct json_encoders_are_injective as (D & A & _).
  split; intros E; [apply D in E | apply A in E]; discriminate E.
Defined.

(** What [packAny] makes of the outcome of [encode], for any message. *)
Lemma StoreCode_packAny_cases (any : Any.binding) (sc : MsgStoreCode_pb.binding)
    (m : MsgStoreCode.t) :
  Any.fromPartial_copies any ->
  MsgStoreCode.packAny any sc m
  = match MsgStoreCode_pb.encode sc (MsgStoreCode.toProto sc m) with
    | Return b => Return (Any.mk "/jax.MsgStoreCode" b)
    | Throw err => Throw err
    end.
Proof.
  intros Hany. unfold MsgStoreCode.packAny.
  destruct (MsgStoreCode_pb.encode sc (MsgStoreCode.toProto sc m)); cbn [bind];
    [now rewrite Hany | reflexivity].
Qed.

Lemma UpdateClient_packAny_cases (any : Any.binding) (uc : MsgUpdateClient_pb.binding)
    (u : MsgUpdateClient.t) :
  Any.fromPartial_copies any ->
  MsgUpdateClient.packAny any uc u
  = match MsgUpdateClient_pb.encode uc (MsgUpdateClient.toProto uc u) with
    | Return b => Return (Any.mk "/ibc.core.client.v1.MsgUpdateClient" b)
    | Throw err => Throw err
    end.
Proof.
  intros Hany. unfold MsgUpdateClient.packAny.
  destruct (MsgUpdateClient_pb.encode uc (MsgUpdateClient.toProto uc u)); cbn [bind];
    [now rewrite Hany | reflexivity].
Qed.

(** X10. No two messages with well-formed strings share an envelope:
    when the generated code keeps its contracts, two messages of the
    declared field types whose strings are well formed and that
    [packAny] packs into the same envelope are the same message, for
    [MsgStoreCode] and for [MsgUpdateClient]; and an envelope of one
    class is never an envelope of the other, whatever the messages. *)
Theorem envelopes_are_injective (any : Any.binding)
    (sc : MsgStoreCode_pb.binding) (uc : MsgUpdateClient_pb.binding) :
  Any.fromPartial_copies any ->
  MsgStoreCode_pb.fromPartial_copies sc -> MsgStoreCode_pb.decode_encode sc ->
  MsgUpdateClient_pb.fromPartial_copies uc -> MsgUpdateClient_pb.decode_encode uc ->
  (forall m1 m2 env,
     MsgStoreCode.wt m1 = true -> MsgStoreCode.wf m1 = true ->
     MsgStoreCode.wt m2 = true -> MsgStoreCode.wf m2 = true ->
     MsgStoreCode.packAny any sc m1 = Return env ->
     MsgStoreCode.packAny any sc m2 = Return env ->
     m1 = m2)
  /\ (forall u1 u2 env,
        MsgUpdateClient.wt u1 = true -> MsgUpdateClient.wf u1 = true ->
        MsgUpdateClient.wt u2 = true -> MsgUpdateClient.wf u2 = true ->
        MsgUpdateClient.packAny any uc u1 = Return env ->
        MsgUpdateClient.packAny any uc u2 = Return env ->
        u1 = u2)
  /\ (forall m u env,
        MsgStoreCode.packAny any sc m = Return env ->
        MsgUpdateClient.packAny any uc u <> Return env).
Proof.
  intros Hany Hsc Hsc' Huc Huc'. split; [|split].
  - intros [c1 a1 co1 pa1] [c2 a2 co2 pa2] env W1 F1 W2 F2 P1 P2.
    rewrite StoreCode_packAny_cases in P1, P2 by assumption.
    unfold MsgStoreCode.toProto in P1, P2.
    cbn [MsgStoreCode.creator MsgStoreCode.admin MsgStoreCode.code MsgStoreCode.params]
      in P1, P2.
    rewrite Hsc in P1, P2 by assumption.
    destruct (Hsc' (MsgStoreCode_pb.mk c1 a1 co1 pa1) W1 F1) as (b1 & E1 & D1).
    destruct (Hsc' (MsgStoreCode_pb.mk c2 a2 co2 pa2) W2 F2) as (b2 & E2 & D2).
    rewrite E1 in P1. rewrite E2 in P2.
    assert (Hb : b1 = b2) by congruence. subst b2.
    rewrite D1 in D2. injection D2 as <- <- <- <-. reflexivity.
  - intros [c1 cm1 s1] [c2 cm2 s2] env W1 F1 W2 F2 P1 P2.
    rewrite UpdateClient_packAny_cases in P1, P2 by assumption.
    unfold MsgUpdateClient.toProto in P1, P2.
    cbn [MsgUpdateClient.client_id MsgUpdateClient.clientMessage MsgUpdateClient.signer]
      in P1, P2.
    rewrite Huc in P1, P2 by assumption.
    destruct (Huc' (MsgUpdateClient_pb.mk c1 cm1 s1) W1 F1) as (b1 & E1 & D1).
    destruct (Huc' (MsgUpdateClient_pb.mk c2 cm2 s2) W2 F2) as (b2 & E2 & D2).
    rewrite E1 in P1. rewrite E2 in P2.
    assert (Hb : b1 = b2) by congruence. subst b2.
    rewrite D1 in D2. injection D2 as <- <- <-. reflexivity.
  - intros m u env P1 P2.
    rewrite StoreCode_packAny_cases in P1 by assumption.
    rewrite UpdateClient_packAny_cases in P2 by assumption.
    destruct (MsgStoreCode_pb.encode sc _); [|discriminate].
    destruct (MsgUpdateClient_pb.encode uc _); [|discriminate].
    injection P1 as <-. discriminate P2.
Qed.

(** With the bindings under Node.js, the example message and the one
    with another creator are packed into different envelopes. *)
Lemma envelopes_are_injective_witness :
  MsgStoreCode.packAny Wire.AnyMsg.binding Node.StoreCode.binding store_code_example
  <> MsgStoreCode.packAny Wire.AnyMsg.binding Node.StoreCode.binding
       store_code_other_example.
Proof.
  destruct (envelopes_are_injective Wire.AnyMsg.binding Node.StoreCode.binding
              Node.UpdateClient.binding Any_wire_fromPartial
              Node_StoreCode_fromPartial Node_StoreCode_decode_encode
              Node_UpdateClient_fromPartial Node_UpdateClient_decode_encode)
    as (Hs & _ & _).
  intros E.
  destruct (MsgStoreCode.packAny Wire.AnyMsg.binding Node.StoreCode.binding
              store_code_example) as [env|err] eqn:P1; [|discriminate P1].
  symmetry in E.
  pose proof (Hs store_code_example store_code_other_example env
                eq_refl eq_refl eq_refl eq_refl P1 E) as Heq.
  discriminate Heq.
Defined.

(** Well-formedness is needed: under Node.js the message whose creator
    ends in a surrogate standing alone and the message that has U+FFFD
    in its place, both of the declared field types, are packed into the
    same envelope. *)
Lemma Node_envelope_of_lone_surrogate :
  MsgStoreCode.wt lone_surrogate_example = true
  /\ MsgStoreCode.wt replaced_surrogate_example = true
  /\ lone_surrogate_example <> replaced_surrogate_example
  /\ MsgStoreCode.packAny Wire.AnyMsg.binding Node.StoreCode.binding
       lone_surrogate_example
     = MsgStoreCode.packAny Wire.AnyMsg.binding Node.StoreCode.binding
         replaced_surrogate_example.
Proof.
  split; [reflexivity|]. split; [reflexivity|].
  split; [|vm_compute; reflexivity].
  intros E. injection E as E. discriminate E.
Qed.
